(** * The QML language-server adapter of solidlsp, embedded in Rocq

    Source: [src/solidlsp/language_servers/qml_language_server.py]
    (class [QmlLanguageServer]).  Python values are an inductive type,
    exceptions are an error monad, the settings dictionary and the
    handler tables of the server handle are [gmap]s keyed by strings, and
    the startup sequence runs in a state-and-exception monad over the
    server handle. *)

From Stdlib Require Import ZArith String Ascii List Lia.
From stdpp Require Import base option list gmap strings.

Local Open Scope Z_scope.
Local Open Scope string_scope.
Local Open Scope list_scope.

(** ** Python values and exceptions *)

#[local] Set Warnings "-register-all".

(** The values that settings files and JSON-RPC payloads are made of.
    Dictionaries keep their insertion order, as Python's do. *)
Inductive pyval : Type :=
  | PNone
  | PBool (b : bool)
  | PInt (n : Z)
  | PStr (s : string)
  | PList (l : list pyval)
  | PDict (d : list (string * pyval)).

(** [bool(v)]: the truth value Python's [if v:] tests. *)
Definition truthy (v : pyval) : bool :=
  match v with
  | PNone => false
  | PBool b => b
  | PInt n => negb (n =? 0)%Z
  | PStr s => negb (String.eqb s "")
  | PList l => match l with [] => false | _ => true end
  | PDict d => match d with [] => false | _ => true end
  end.

(** The exceptions the adapter raises itself or lets through: Python's
    own, and the failures of the server handle under the names the
    specification gives them. *)
Inductive exn : Type :=
  | AssertionError
  | KeyError (key : string)
  | TypeError
  | ValueError
  | RuntimeError (msg : string)
  | FileNotFoundError
  | PermissionError
  | StartupError
  | RemoteError (code : Z) (msg : string)
  | ServerDied.

Inductive result (A : Type) : Type :=
  | Ok (a : A)
  | Raise (e : exn).
Arguments Ok {A} a.
Arguments Raise {A} e.

#[global] Instance result_ret : MRet result := fun _ a => Ok a.
#[global] Instance result_bind : MBind result := fun _ _ f m =>
  match m with
  | Ok a => f a
  | Raise e => Raise e
  end.

(** ** The standard-library functions the adapter calls (POSIX flavour) *)

Definition startswith_sep (s : string) : bool :=
  match s with
  | String c _ => Ascii.eqb c "/"
  | EmptyString => false
  end.

Fixpoint endswith_sep (s : string) : bool :=
  match s with
  | EmptyString => false
  | String c EmptyString => Ascii.eqb c "/"
  | String _ rest => endswith_sep rest
  end.

Fixpoint has_sep (s : string) : bool :=
  match s with
  | EmptyString => false
  | String c rest => Ascii.eqb c "/" || has_sep rest
  end.

Module posixpath.

(** [os.path.isabs(s)]: [s.startswith("/")]. *)
Definition isabs (s : string) : bool := startswith_sep s.

(** [os.path.join(a, b)] for one extra component. *)
Definition join (a b : string) : string :=
  if startswith_sep b then b
  else if String.eqb a "" || endswith_sep a then a +:+ b
  else a +:+ "/" +:+ b.

(** [os.path.basename(p)]: what follows the last ["/"]. *)
Fixpoint basename (p : string) : string :=
  match p with
  | EmptyString => EmptyString
  | String c rest =>
      if has_sep rest then basename rest
      else if Ascii.eqb c "/" then rest
      else p
  end.

End posixpath.

(** [os.path.isabs] and [os.path.join] on an arbitrary Python value:
    anything but a string is refused with [TypeError] by [os.fspath]. *)
Definition os_path_isabs (v : pyval) : result bool :=
  match v with
  | PStr s => Ok (posixpath.isabs s)
  | _ => Raise TypeError
  end.

Definition os_path_join (a : string) (v : pyval) : result string :=
  match v with
  | PStr s => Ok (posixpath.join a s)
  | _ => Raise TypeError
  end.

(** A string holds the UTF-8 encoding of a Python [str]: a character is
    a lead byte together with the continuation bytes (10xxxxxx) behind it. *)
Definition is_continuation (c : ascii) : bool :=
  let n := nat_of_ascii c in (128 <=? n)%nat && (n <? 192)%nat.

(** [list(s)]: the characters of a string, each a string of its own. *)
Fixpoint code_points (s : string) : list string :=
  match s with
  | EmptyString => []
  | String c rest =>
      match rest with
      | String c' _ =>
          if is_continuation c' then
            match code_points rest with
            | point :: points => String c point :: points
            | [] => [String c EmptyString]
            end
          else String c EmptyString :: code_points rest
      | EmptyString => [String c EmptyString]
      end
  end.

(** [iter(v)]: the items a [for] loop over [v] visits. *)
Definition py_iter (v : pyval) : result (list pyval) :=
  match v with
  | PList l => Ok l
  | PDict d => Ok (map (fun kv => PStr (fst kv)) d)
  | PStr s => Ok (map PStr (code_points s))
  | PNone | PBool _ | PInt _ => Raise TypeError
  end.

(** [c.isspace()] for one character: the white space of Unicode, U+0009
    to U+000D, U+001C to U+0020, U+0085, U+00A0, U+1680, U+2000 to U+200A,
    U+2028, U+2029, U+202F, U+205F and U+3000, by its UTF-8 bytes. *)
Definition isspace (point : string) : bool :=
  match map N_of_ascii (list_ascii_of_string point) with
  | [n] => ((9 <=? n) && (n <=? 13) || (28 <=? n) && (n <=? 32))%N
  | [194%N; n] => ((n =? 133) || (n =? 160))%N
  | [225%N; 154%N; 128%N] => true
  | [226%N; 128%N; n] =>
      ((128 <=? n) && (n <=? 138) || (n =? 168) || (n =? 169) || (n =? 175))%N
  | [226%N; 129%N; 159%N] => true
  | [227%N; 128%N; 128%N] => true
  | _ => false
  end.

(** [str.lstrip()] and [str.rstrip()] on the characters of a string. *)
Fixpoint lstrip (points : list string) : list string :=
  match points with
  | point :: rest => if isspace point then lstrip rest else points
  | [] => []
  end.

Fixpoint rstrip (points : list string) : list string :=
  match points with
  | [] => []
  | point :: rest =>
      match rstrip rest with
      | [] => if isspace point then [] else [point]
      | rest' => point :: rest'
      end
  end.

(** [str.join("", points)]. *)
Definition join_points (points : list string) : string :=
  fold_right String.append EmptyString points.

(** [str.strip()]: white space removed at both ends. *)
Definition strip (s : string) : string :=
  join_points (rstrip (lstrip (code_points s))).

(** [list(range(lo, hi))]. *)
Definition py_range (lo hi : Z) : list Z :=
  map (fun i => lo + Z.of_nat i) (seq 0 (Z.to_nat (hi - lo))).

(** ** Directory filter *)

Section IsIgnoredDirname.

(** [SolidLanguageServer.is_ignored_dirname], the inherited filter. *)
Variable super_is_ignored_dirname : string -> bool.

Definition is_ignored_dirname (dirname : string) : bool :=
  super_is_ignored_dirname dirname
  || existsb (String.eqb dirname) ["build"; "node_modules"].

End IsIgnoredDirname.

(** ** The runtime-dependency probe *)

(** What [subprocess.run(..., capture_output=True, text=True, check=False)]
    hands back when the child could be started. *)
Record CompletedProcess : Type := {
  returncode : Z;
  stdout : string;
}.

(** [x or y] on strings. *)
Definition str_or (x y : string) : string :=
  if truthy (PStr x) then x else y.

(** The argument is the outcome of [subprocess.run(["qmlls", "--help"])]:
    a completed process, or the exception the launch attempt raised. *)
Definition _get_qmlls_version (run : result CompletedProcess) : result (option string) :=
  match run with
  | Ok result =>
      if (returncode result =? 0)%Z
      then Ok (Some (str_or (strip (stdout result)) "qmlls available"))
      else Ok None
  | Raise FileNotFoundError => Ok None
  | Raise e => Raise e
  end.

Definition nl : string := String (ascii_of_nat 10) EmptyString.

Definition qmlls_missing_message : string :=
  "qmlls is not installed or not on PATH." +:+ nl +:+
  "qmlls is part of the Qt framework. Please install Qt 6.x and ensure qmlls is on your PATH." +:+ nl +:+
  "It is typically found at <Qt install dir>/<version>/<platform>/bin/qmlls.".

Definition _setup_runtime_dependency (run : result CompletedProcess) : result bool :=
  qmlls_version ← _get_qmlls_version run;
  if negb (match qmlls_version with Some s => truthy (PStr s) | None => false end)
  then Raise (RuntimeError qmlls_missing_message)
  else Ok true.

(** ** The constructor: building the launch command *)

(** [ProcessLaunchInfo(cmd=..., cwd=...)]. *)
Record ProcessLaunchInfo : Type := {
  cmd : list string;
  cwd : string;
}.

(** What the constructor leaves behind: the arguments it hands to
    [SolidLanguageServer.__init__] and the field it sets afterwards. *)
Record QmlLanguageServer : Type := {
  repository_root_path : string;
  process_launch_info : ProcessLaunchInfo;
  language_id : string;
  request_id : Z;
}.

(** [d.get(k)]: [None] for a missing key. *)
Definition dict_get (d : gmap string pyval) (k : string) : pyval :=
  default PNone (d !! k).

(** The idiom of lines 78-79, 85-86 and 97-98:
    [if not os.path.isabs(p): p = os.path.join(repository_root_path, p)]. *)
Definition absolute_under (repository_root_path : string) (p : pyval) : result string :=
  isabs ← os_path_isabs p;
  if negb isabs then os_path_join repository_root_path p
  else match p with
       | PStr s => Ok s
       | _ => Raise TypeError
       end.

(** The body of [for import_path in import_paths:], run over the items. *)
Fixpoint for_import_paths (repository_root_path : string) (items : list pyval)
    (cmd : list string) : result (list string) :=
  match items with
  | [] => Ok cmd
  | import_path :: rest =>
      import_path ← absolute_under repository_root_path import_path;
      for_import_paths repository_root_path rest (cmd ++ ["-I"; import_path])
  end.

(** [QmlLanguageServer.__init__].  [run] is the outcome of the probe's
    [subprocess.run]; [qml_settings] is the dictionary returned by
    [solidlsp_settings.get_ls_specific_settings(config.code_language)]. *)
Definition __init__ (run : result CompletedProcess) (repository_root_path : string)
    (qml_settings : gmap string pyval) : result QmlLanguageServer :=
  _ ← _setup_runtime_dependency run;
  let cmd := ["qmlls"] in
  let build_dir := dict_get qml_settings "build_dir" in
  cmd ← (if truthy build_dir then
           build_dir ← absolute_under repository_root_path build_dir;
           Ok (cmd ++ ["--build-dir"; build_dir])
         else Ok cmd);
  let import_paths := dict_get qml_settings "import_paths" in
  cmd ← (if truthy import_paths then
           items ← py_iter import_paths;
           for_import_paths repository_root_path items cmd
         else Ok cmd);
  let cmd := if truthy (dict_get qml_settings "use_environment_import_paths")
             then cmd ++ ["-E"] else cmd in
  let cmd := if truthy (dict_get qml_settings "no_cmake_calls")
             then cmd ++ ["--no-cmake-calls"] else cmd in
  let doc_dir := dict_get qml_settings "doc_dir" in
  cmd ← (if truthy doc_dir then
           doc_dir ← absolute_under repository_root_path doc_dir;
           Ok (cmd ++ ["-d"; doc_dir])
         else Ok cmd);
  Ok {| repository_root_path := repository_root_path;
        process_launch_info := {| cmd := cmd; cwd := repository_root_path |};
        language_id := "qml";
        request_id := 0 |}.

(** ** The initialize parameters *)

Module pathlib.

(** [posixpath.splitroot]: the root (["/"], ["//"] or none) and the rest. *)
Definition splitroot (p : string) : string * string :=
  match p with
  | String c1 r1 =>
      if Ascii.eqb c1 "/" then
        match r1 with
        | String c2 r2 =>
            if Ascii.eqb c2 "/" then
              if startswith_sep r2 then ("/", r1) else ("//", r2)
            else ("/", r1)
        | EmptyString => ("/", r1)
        end
      else ("", p)
  | EmptyString => ("", p)
  end.

(** [s.split("/")]. *)
Fixpoint split_sep (s : string) : list string :=
  match s with
  | EmptyString => [EmptyString]
  | String c rest =>
      if Ascii.eqb c "/" then EmptyString :: split_sep rest
      else match split_sep rest with
           | hd :: tl => String c hd :: tl
           | [] => [String c EmptyString]
           end
  end.

(** The components a path keeps: neither empty nor ["."]. *)
Definition parts (rel : string) : list string :=
  filter (fun x => negb (String.eqb x "" || String.eqb x ".")) (split_sep rel).

Definition is_absolute (p : string) : bool :=
  negb (String.eqb (fst (splitroot p)) "").

(** [str(PurePosixPath(p))] for a path with a root. *)
Definition as_posix (p : string) : string :=
  let (root, rel) := splitroot p in
  root +:+ String.concat "/" (parts rel).

Definition hex_digit (n : nat) : ascii :=
  ascii_of_nat (if (n <? 10)%nat then 48 + n else 55 + n).

(** [urllib.parse.quote_from_bytes] with its default [safe="/"]. *)
Definition always_safe (c : ascii) : bool :=
  let n := nat_of_ascii c in
  ((48 <=? n)%nat && (n <=? 57)%nat) || ((65 <=? n)%nat && (n <=? 90)%nat)
  || ((97 <=? n)%nat && (n <=? 122)%nat)
  || existsb (Ascii.eqb c) ["_"; "."; "-"; "~"; "/"]%char.

Fixpoint quote (s : string) : string :=
  match s with
  | EmptyString => EmptyString
  | String c rest =>
      if always_safe c then String c (quote rest)
      else String "%" (String (hex_digit (nat_of_ascii c / 16))
             (String (hex_digit (nat_of_ascii c mod 16)) (quote rest)))
  end.

(** [pathlib.Path(p).as_uri()]. *)
Definition as_uri (p : string) : result string :=
  if is_absolute p then Ok ("file://" +:+ quote (as_posix p))
  else Raise ValueError.

End pathlib.

(** [QmlLanguageServer._get_initialize_params]; [pid] is [os.getpid()]. *)
Definition _get_initialize_params (pid : Z) (repository_absolute_path : string) : result pyval :=
  root_uri ← pathlib.as_uri repository_absolute_path;
  let initialize_params := PDict [
    ("locale", PStr "en");
    ("capabilities", PDict [
      ("textDocument", PDict [
        ("synchronization", PDict [("didSave", PBool true); ("dynamicRegistration", PBool true)]);
        ("definition", PDict [("dynamicRegistration", PBool true)]);
        ("documentSymbol", PDict [
          ("dynamicRegistration", PBool true);
          ("hierarchicalDocumentSymbolSupport", PBool true);
          ("symbolKind", PDict [("valueSet", PList (map PInt (py_range 1 27)))])
        ])
      ]);
      ("workspace", PDict [
        ("workspaceFolders", PBool true);
        ("didChangeConfiguration", PDict [("dynamicRegistration", PBool true)])
      ])
    ]);
    ("processId", PInt pid);
    ("rootPath", PStr repository_absolute_path);
    ("rootUri", PStr root_uri);
    ("workspaceFolders", PList [
      PDict [
        ("uri", PStr root_uri);
        ("name", PStr (posixpath.basename repository_absolute_path))
      ]
    ])
  ] in
  Ok initialize_params.

(** [v[k]] on a Python value. *)
Definition getitem (v : pyval) (k : string) : result pyval :=
  match v with
  | PDict d =>
      match List.find (fun kv => String.eqb (fst kv) k) d with
      | Some kv => Ok (snd kv)
      | None => Raise (KeyError k)
      end
  | _ => Raise TypeError
  end.

(** [k in v] for a string [k]. *)
Fixpoint contains_substring (needle s : string) : bool :=
  String.prefix needle s ||
  match s with
  | String _ rest => contains_substring needle rest
  | EmptyString => false
  end.

Definition py_contains (k : string) (v : pyval) : result bool :=
  match v with
  | PDict d => Ok (existsb (fun kv => String.eqb (fst kv) k) d)
  | PList l => Ok (existsb (fun e => match e with PStr s => String.eqb s k | _ => false end) l)
  | PStr s => Ok (contains_substring k s)
  | PNone | PBool _ | PInt _ => Raise TypeError
  end.

(** ** The server handle and the startup sequence *)

(** The three closures [_start_server] defines and registers. *)
Inductive handler : Type :=
  | register_capability_handler
  | window_log_message
  | do_nothing.

(** JSON-RPC messages, in either direction. *)
Inductive message : Type :=
  | Request (id : Z) (method : string) (params : pyval)
  | ResultResponse (id : Z) (res : pyval)
  | ErrorResponse (id : Z) (code : Z) (msg : string)
  | Notification (method : string) (params : pyval).

(** What happens on a connection, oldest first. *)
Inductive event : Type :=
  | RegisteredRequest (method : string) (h : handler)
  | RegisteredNotification (method : string) (h : handler)
  | Started
  | Sent (m : message)
  | Handled (m : message) (h : handler)
  | Dropped (m : message)
  | Logged (line : string) (arg : option pyval).

(** The state [_start_server] acts on: [self.server] and the module's
    logger, whose lines are kept in [history] with everything else. *)
Record world : Type := {
  request_handlers : gmap string handler;
  notification_handlers : gmap string handler;
  running : bool;
  next_id : Z;
  history : list event;
}.

(** A connection nothing has happened on yet. *)
Definition fresh : world :=
  {| request_handlers := ∅; notification_handlers := ∅;
     running := false; next_id := 0; history := [] |}.

(** What the other side does during one startup: whether the operating
    system spawns the child, what the server writes before it answers
    [initialize], and the answer (a result, or the failure the request
    ends with). *)
Record server_behaviour : Type := {
  spawn : result unit;
  early : list message;
  reply : result pyval;
}.

(** State and exceptions: a raised exception keeps the effects so far. *)
Definition M (A : Type) : Type := world → result A * world.

#[global] Instance M_ret : MRet M := fun _ a w => (Ok a, w).
#[global] Instance M_bind : MBind M := fun _ _ f m w =>
  match m w with
  | (Ok a, w') => f a w'
  | (Raise e, w') => (Raise e, w')
  end.

Definition lift {A : Type} (r : result A) : M A := fun w => (r, w).

Definition record (e : event) : M unit := fun w =>
  (Ok (),
   {| request_handlers := request_handlers w;
      notification_handlers := notification_handlers w;
      running := running w; next_id := next_id w;
      history := history w ++ [e] |}).

(** [log.info(line)], with the value an f-string interpolates. *)
Definition log_info (line : string) (arg : option pyval) : M unit :=
  record (Logged line arg).

(** [assert b]. *)
Definition py_assert (b : bool) : M unit :=
  lift (if b then Ok () else Raise AssertionError).

(** The bodies of the three closures (lines 139-146). *)
Definition run_handler (h : handler) (params : pyval) : M unit :=
  match h with
  | register_capability_handler => mret ()
  | window_log_message => log_info "LSP: window/logMessage: " (Some params)
  | do_nothing => mret ()
  end.

(** Modelled from the spec: [self.server.on_request] of the Dispatch
    Table (4.4, HandlerTable in 3): one handler per method name, the last
    registration wins. *)
Definition on_request (method : string) (h : handler) : M unit := fun w =>
  record (RegisteredRequest method h)
    {| request_handlers := <[method := h]> (request_handlers w);
       notification_handlers := notification_handlers w;
       running := running w; next_id := next_id w; history := history w |}.

(** Modelled from the spec: [self.server.on_notification], as above for
    inbound notifications. *)
Definition on_notification (method : string) (h : handler) : M unit := fun w =>
  record (RegisteredNotification method h)
    {| request_handlers := request_handlers w;
       notification_handlers := <[method := h]> (notification_handlers w);
       running := running w; next_id := next_id w; history := history w |}.

(** Modelled from the spec: [self.server.start] of the Process Supervisor
    (4.1): the child runs afterwards, or the call fails. *)
Definition start (env : server_behaviour) : M unit := fun w =>
  match spawn env with
  | Ok _ =>
      record Started
        {| request_handlers := request_handlers w;
           notification_handlers := notification_handlers w;
           running := true; next_id := next_id w; history := history w |}
  | Raise e => (Raise e, w)
  end.

(** Modelled from the spec: the read loop's dispatch of one inbound
    message (4.3, 4.4).  A notification goes to its registered handler or
    is dropped; a request goes to its handler, whose result is sent back,
    or is answered "method not found"; a response nobody waits for is
    discarded. *)
Definition dispatch (m : message) : M unit := fun w =>
  match m with
  | Notification method params =>
      match notification_handlers w !! method with
      | Some h => (run_handler h params;; record (Handled m h)) w
      | None => record (Dropped m) w
      end
  | Request id method params =>
      match request_handlers w !! method with
      | Some h => (run_handler h params;; record (Handled m h);;
                   record (Sent (ResultResponse id PNone))) w
      | None => record (Sent (ErrorResponse id (-32601) "Method not found")) w
      end
  | ResultResponse _ _ | ErrorResponse _ _ _ => record (Dropped m) w
  end.

Fixpoint dispatch_all (ms : list message) : M unit :=
  match ms with
  | [] => mret ()
  | m :: rest => dispatch m;; dispatch_all rest
  end.

(** Modelled from the spec: the outcome of a request reaches its caller
    (4.3); when it is ServerDied the child has exited (4.1, 7). *)
Definition survives (outcome : result pyval) : bool :=
  match outcome with
  | Raise ServerDied => false
  | _ => true
  end.

Definition receive (outcome : result pyval) : M pyval := fun w =>
  (outcome,
   {| request_handlers := request_handlers w;
      notification_handlers := notification_handlers w;
      running := running w && survives outcome; next_id := next_id w;
      history := history w |}).

(** Modelled from the spec: [sendRequest] of the Request Correlator (4.3):
    a fresh id, the request written, the caller suspended while the read
    loop dispatches what arrives, then the result or the failure. *)
Definition send_request (env : server_behaviour) (method : string) (params : pyval) : M pyval :=
  fun w =>
    let id := next_id w in
    (record (Sent (Request id method params));;
     dispatch_all (early env);;
     receive (reply env))
      {| request_handlers := request_handlers w;
         notification_handlers := notification_handlers w;
         running := running w; next_id := id + 1; history := history w |}.

(** Modelled from the spec: [sendNotification] (4.3): written, no
    correlation. *)
Definition send_notification (method : string) (params : pyval) : M unit :=
  record (Sent (Notification method params)).

(** [QmlLanguageServer._start_server]. *)
Definition _start_server (env : server_behaviour) (pid : Z) (self : QmlLanguageServer) : M unit :=
  on_request "client/registerCapability" register_capability_handler;;
  on_notification "window/logMessage" window_log_message;;
  on_notification "$/progress" do_nothing;;
  on_notification "textDocument/publishDiagnostics" do_nothing;;
  log_info "Starting qmlls server process" None;;
  start env;;
  initialize_params ← lift (_get_initialize_params pid (repository_root_path self));
  log_info "Sending initialize request from LSP client to LSP server and awaiting response" None;;
  init_response ← send_request env "initialize" initialize_params;
  capabilities ← lift (getitem init_response "capabilities");
  present ← lift (py_contains "textDocumentSync" capabilities);
  py_assert present;;
  send_notification "initialized" (PDict []).

(** ** Vocabulary of the properties *)

(** The types the constructor's docstring gives the path settings; a
    missing key reads as [None]. *)
Definition is_str (v : pyval) : bool :=
  match v with PStr _ => true | _ => false end.

Definition is_path_setting (v : pyval) : bool :=
  match v with PNone | PStr _ => true | _ => false end.

Definition is_path_list_setting (v : pyval) : bool :=
  match v with
  | PNone => true
  | PList l => forallb is_str l
  | _ => false
  end.

Definition documented_types (qml_settings : gmap string pyval) : bool :=
  is_path_setting (dict_get qml_settings "build_dir")
  && is_path_list_setting (dict_get qml_settings "import_paths")
  && is_path_setting (dict_get qml_settings "doc_dir").

(** The documented mapping from settings to arguments, written from the
    docstring rather than from the constructor's body. *)
Definition made_absolute (root p : string) : string :=
  if posixpath.isabs p then p else posixpath.join root p.

Definition path_arguments (flag root : string) (v : pyval) : list string :=
  match v with
  | PStr p => if String.eqb p "" then [] else [flag; made_absolute root p]
  | _ => []
  end.

Definition import_arguments (root : string) (v : pyval) : list string :=
  match v with
  | PList l =>
      flat_map (fun e => match e with
                         | PStr p => ["-I"; made_absolute root p]
                         | _ => []
                         end) l
  | _ => []
  end.

Definition flag_argument (flag : string) (v : pyval) : list string :=
  if truthy v then [flag] else [].

Definition documented_cmd (root : string) (qml_settings : gmap string pyval) : list string :=
  "qmlls"
  :: path_arguments "--build-dir" root (dict_get qml_settings "build_dir")
  ++ import_arguments root (dict_get qml_settings "import_paths")
  ++ flag_argument "-E" (dict_get qml_settings "use_environment_import_paths")
  ++ flag_argument "--no-cmake-calls" (dict_get qml_settings "no_cmake_calls")
  ++ path_arguments "-d" root (dict_get qml_settings "doc_dir").

(** A path setting the constructor gets past: a falsy value of any kind,
    or a string. *)
Definition path_accepted (v : pyval) : bool := negb (truthy v) || is_str v.

(** An [import_paths] the constructor gets past: a falsy value of any
    kind, or something a [for] loop can visit whose items are all strings
    (a list of strings, a dictionary, a string). *)
Definition paths_accepted (v : pyval) : bool :=
  negb (truthy v)
  || match py_iter v with
     | Ok items => forallb is_str items
     | Raise _ => false
     end.

Definition accepted (qml_settings : gmap string pyval) : bool :=
  path_accepted (dict_get qml_settings "build_dir")
  && paths_accepted (dict_get qml_settings "import_paths")
  && path_accepted (dict_get qml_settings "doc_dir").

(** The entries of [import_paths]: what a [for] loop over it visits. *)
Definition entries (v : pyval) : list pyval :=
  match py_iter v with
  | Ok items => items
  | Raise _ => []
  end.

(** ["-I"] and the path, for each entry of a truthy [import_paths]. *)
Definition entry_arguments (root : string) (v : pyval) : list string :=
  if truthy v then import_arguments root (PList (entries v)) else [].

(** Settings outside the documented types that the constructor takes: a
    false [build_dir], a dictionary as [import_paths], a string where a
    switch is expected. *)
Definition loose_settings : gmap string pyval :=
  <["build_dir" := PBool false]>
    (<["import_paths" := PDict [("libs", PInt 1); ("/opt/qml", PNone)]]>
       (<["use_environment_import_paths" := PStr "yes"]>
          (<["doc_dir" := PStr "docs"]> ∅))).

(** A sample configuration: a relative build directory, one absolute and
    one relative import path, and one of the two switches. *)
Definition sample_settings : gmap string pyval :=
  <["build_dir" := PStr "build"]>
    (<["import_paths" := PList [PStr "/opt/qml"; PStr "imports"]]>
       (<["no_cmake_calls" := PBool true]>
          (<["use_environment_import_paths" := PBool false]> ∅))).

Definition help_ok : result CompletedProcess :=
  Ok {| returncode := 0; stdout := "Usage: qmlls [options]" |}.

(** The executable was found when the launch attempt went through. *)
Definition executable_found (run : result CompletedProcess) : Prop :=
  ∃ cp, run = Ok cp.

(** [v[k1][k2]...]. *)
Fixpoint get_path (ks : list string) (v : pyval) : result pyval :=
  match ks with
  | [] => Ok v
  | k :: rest => v' ← getitem v k; get_path rest v'
  end.

(** The same connection with more events behind it. *)
Definition extend (w : world) (evs : list event) : world :=
  {| request_handlers := request_handlers w;
     notification_handlers := notification_handlers w;
     running := running w; next_id := next_id w;
     history := history w ++ evs |}.

(** What a handler leaves in the history. *)
Definition handler_events (h : handler) (params : pyval) : list event :=
  match h with
  | window_log_message => [Logged "LSP: window/logMessage: " (Some params)]
  | register_capability_handler | do_nothing => []
  end.

(** What the dispatch of one inbound message leaves in the history, given
    the two handler tables. *)
Definition dispatch_events (rq nt : gmap string handler) (m : message) : list event :=
  match m with
  | Notification method params =>
      match nt !! method with
      | Some h => handler_events h params ++ [Handled m h]
      | None => [Dropped m]
      end
  | Request id method params =>
      match rq !! method with
      | Some h => handler_events h params ++ [Handled m h; Sent (ResultResponse id PNone)]
      | None => [Sent (ErrorResponse id (-32601) "Method not found")]
      end
  | ResultResponse _ _ | ErrorResponse _ _ _ => [Dropped m]
  end.

(** The four registrations [_start_server] begins with. *)
Definition registrations : list event :=
  [RegisteredRequest "client/registerCapability" register_capability_handler;
   RegisteredNotification "window/logMessage" window_log_message;
   RegisteredNotification "$/progress" do_nothing;
   RegisteredNotification "textDocument/publishDiagnostics" do_nothing].

(** The connection once the handlers are registered (lines 148-153). *)
Definition prepared (w : world) : world :=
  {| request_handlers :=
       <["client/registerCapability" := register_capability_handler]> (request_handlers w);
     notification_handlers :=
       <["textDocument/publishDiagnostics" := do_nothing]>
         (<["$/progress" := do_nothing]>
            (<["window/logMessage" := window_log_message]> (notification_handlers w)));
     running := running w; next_id := next_id w;
     history :=
       history w ++ registrations ++ [Logged "Starting qmlls server process" None] |}.

(** The connection once the child is spawned (line 154). *)
Definition started (w : world) : world :=
  {| request_handlers := request_handlers (prepared w);
     notification_handlers := notification_handlers (prepared w);
     running := true; next_id := next_id w;
     history := history (prepared w) ++ [Started] |}.

(** The events from the spawn to the arrival of the initialize response. *)
Definition handshake_events (env : server_behaviour) (params : pyval) (w : world) : list event :=
  [Started;
   Logged "Sending initialize request from LSP client to LSP server and awaiting response" None;
   Sent (Request (next_id w) "initialize" params)]
  ++ flat_map (dispatch_events (request_handlers (prepared w))
                 (notification_handlers (prepared w))) (early env).

(** The connection when the initialize request has its outcome (line 158). *)
Definition awaiting (env : server_behaviour) (params : pyval) (w : world) : world :=
  {| request_handlers := request_handlers (prepared w);
     notification_handlers := notification_handlers (prepared w);
     running := survives (reply env); next_id := next_id w + 1;
     history := history (prepared w) ++ handshake_events env params w |}.

(** Lines 158-162, from the outcome of the initialize request on. *)
Definition validate (response : result pyval) : M unit :=
  init_response ← lift response;
  capabilities ← lift (getitem init_response "capabilities");
  present ← lift (py_contains "textDocumentSync" capabilities);
  py_assert present;;
  send_notification "initialized" (PDict []).

(** Runs the sequence up to the first test whose outcome is not known. *)
Ltac run_startup :=
  cbv beta iota zeta delta
    [_start_server validate send_request receive send_notification mbind M_bind mret M_ret
     on_request on_notification log_info py_assert start record lift
     history request_handlers notification_handlers running next_id].

(** The test of line 160 on a response. *)
Definition capability_check (init_response : pyval) : result unit :=
  capabilities ← getitem init_response "capabilities";
  present ← py_contains "textDocumentSync" capabilities;
  if (present : bool) then Ok () else Raise AssertionError.

(** The caller unblocks queries when [_start_server] returns: that return
    is the Ready state. *)
Definition Ready (out : result unit * world) : Prop := fst out = Ok ().

Definition is_initialize_request (e : event) : bool :=
  match e with
  | Sent (Request _ method _) => String.eqb method "initialize"
  | _ => false
  end.

Definition is_initialized_notification (e : event) : bool :=
  match e with
  | Sent (Notification method _) => String.eqb method "initialized"
  | _ => false
  end.

(** The messages written to the server, oldest first. *)
Definition sent_messages (evs : list event) : list message :=
  omap (fun e => match e with Sent m => Some m | _ => None end) evs.

Definition is_response (m : message) : bool :=
  match m with
  | ResultResponse _ _ | ErrorResponse _ _ _ => true
  | Request _ _ _ | Notification _ _ => false
  end.

Definition is_initialize (m : message) : bool :=
  match m with
  | Request _ method _ => String.eqb method "initialize"
  | _ => false
  end.

Definition is_initialized (m : message) : bool :=
  match m with
  | Notification method _ => String.eqb method "initialized"
  | _ => false
  end.

(** The handler [_start_server] registers for an inbound message. *)
Definition default_handler (m : message) : option handler :=
  match m with
  | Request _ method _ =>
      if String.eqb method "client/registerCapability"
      then Some register_capability_handler else None
  | Notification method _ =>
      if String.eqb method "window/logMessage" then Some window_log_message
      else if String.eqb method "$/progress" then Some do_nothing
      else if String.eqb method "textDocument/publishDiagnostics" then Some do_nothing
      else None
  | ResultResponse _ _ | ErrorResponse _ _ _ => None
  end.

(** A server that is constructed for [/home/u/proj]. *)
Definition sample_self : QmlLanguageServer :=
  {| repository_root_path := "/home/u/proj";
     process_launch_info := {| cmd := ["qmlls"]; cwd := "/home/u/proj" |};
     language_id := "qml";
     request_id := 0 |}.

(** A server that logs, asks for a capability registration and reports
    progress before it answers [initialize]. *)
Definition chatty_server : server_behaviour :=
  {| spawn := Ok ();
     early :=
       [Notification "window/logMessage" (PDict [("type", PInt 3); ("message", PStr "hello")]);
        Request 1 "client/registerCapability" (PDict [("registrations", PList [])]);
        Notification "$/progress" (PDict [("token", PInt 0)])];
     reply := Ok (PDict [("capabilities", PDict [("textDocumentSync", PInt 2)])]) |}.

(** A server whose initialize response announces capabilities but no
    text document synchronization. *)
Definition server_without_sync : server_behaviour :=
  {| spawn := Ok ();
     early := [];
     reply := Ok (PDict [("capabilities", PDict [("definitionProvider", PBool true)])]) |}.

(** The connection is torn down when the child no longer runs. *)
Definition torn_down (w : world) : Prop := running w = false.

(** ** Vocabulary of the further properties *)

(** A character in full: one byte and continuation bytes behind it. *)
Definition continues (point : string) : bool :=
  match point with
  | String _ t => forallb is_continuation (list_ascii_of_string t)
  | EmptyString => false
  end.

(** A character that does not begin with a continuation byte. *)
Definition fresh_start (point : string) : bool :=
  match point with
  | String c _ => negb (is_continuation c)
  | EmptyString => false
  end.

(** Characters that can follow others in a string. *)
Definition followers (points : list string) : bool :=
  forallb (fun p => continues p && fresh_start p) points.

(** The shape of [code_points s]: full characters, all but the first
    beginning with a lead byte. *)
Definition whole_characters (points : list string) : bool :=
  match points with
  | [] => true
  | p :: rest => continues p && followers rest
  end.

(** A string of white space only. *)
Definition all_space (s : string) : bool := forallb isspace (code_points s).

(** A string given by its bytes. *)
Definition bytes (l : list Z) : string :=
  string_of_list_ascii (map (fun z => ascii_of_N (Z.to_N z)) l).

(** The options [__init__] passes to qmlls. *)
Definition qmlls_flags : list string :=
  ["--build-dir"; "-I"; "-E"; "--no-cmake-calls"; "-d"].

(** The settings [__init__] reads. *)
Definition qml_setting_keys : list string :=
  ["build_dir"; "import_paths"; "use_environment_import_paths";
   "no_cmake_calls"; "doc_dir"].

(** The [-I] arguments of an [import_paths] given as one string: the loop
    of line 84 visits its characters. *)
Definition character_import_arguments (root s : string) : list string :=
  flat_map (fun point => ["-I"; made_absolute root point]) (code_points s).

(** [ref["range"]["start"]["line"]] (test_qml_basic.py, line 70). *)
Definition ref_start_line (ref : pyval) : result pyval :=
  range ← getitem ref "range";
  start ← getitem range "start";
  getitem start "line".

(** The list comprehension of line 70 over the items of [references]. *)
Fixpoint ref_lines_of (refs : list pyval) : result (list pyval) :=
  match refs with
  | [] => Ok []
  | ref :: rest =>
      line ← ref_start_line ref;
      lines ← ref_lines_of rest;
      Ok (line :: lines)
  end.

(** [TestQmlLanguageServer.test_find_references_within_file], from the
    value [language_server.request_references("Main.qml", 9, 17)] returned
    on: [Ok] when the test passes. *)
Definition test_find_references_within_file (references : pyval) : result unit :=
  _ ← (if truthy references then Ok () else Raise AssertionError);
  items ← py_iter references;
  ref_lines ← ref_lines_of items;
  if (2 <=? length ref_lines)%nat then Ok () else Raise AssertionError.

(** The values [window_log_message] logged, oldest first. *)
Definition logged_messages (evs : list event) : list pyval :=
  omap (fun e => match e with
                 | Logged line (Some msg) =>
                     if String.eqb line "LSP: window/logMessage: " then Some msg else None
                 | _ => None
                 end) evs.

(** The payloads of the window/logMessage notifications among inbound
    messages, in arrival order. *)
Definition log_message_params (ms : list message) : list pyval :=
  omap (fun m => match m with
                 | Notification method params =>
                     if String.eqb method "window/logMessage" then Some params else None
                 | _ => None
                 end) ms.

(** What [__init__] sees of a setting: its value when truthy, and nothing
    otherwise. *)
Definition effective (v : pyval) : pyval := if truthy v then v else PNone.

(** * Properties *)

(** ** The standard-library functions on sample inputs *)

Example join_samples :
  posixpath.join "/home/u/proj" "build" = "/home/u/proj/build"
  ∧ posixpath.join "/home/u/proj/" "build" = "/home/u/proj/build"
  ∧ posixpath.join "/home/u/proj" "/opt/qml" = "/opt/qml"
  ∧ posixpath.join "" "build" = "build"
  ∧ posixpath.join "/home/u/proj" "" = "/home/u/proj/".
Proof. repeat split; reflexivity. Qed.

Example basename_samples :
  posixpath.basename "/home/u/proj" = "proj"
  ∧ posixpath.basename "/home/u/proj/" = ""
  ∧ posixpath.basename "proj" = "proj"
  ∧ posixpath.basename "/" = "".
Proof. repeat split; reflexivity. Qed.

Example as_uri_samples :
  pathlib.as_uri "/home/u/proj" = Ok "file:///home/u/proj"
  ∧ pathlib.as_uri "/home/u//my proj/./x/" = Ok "file:///home/u/my%20proj/x"
  ∧ pathlib.as_uri "//host/share" = Ok "file:////host/share"
  ∧ pathlib.as_uri "/" = Ok "file:///"
  ∧ pathlib.as_uri "proj" = Raise ValueError.
Proof. repeat split; reflexivity. Qed.

Example strip_samples :
  strip "  qmlls 6.7  " = "qmlls 6.7"
  ∧ strip (nl +:+ "Usage: qmlls" +:+ nl) = "Usage: qmlls"
  ∧ strip ("  " +:+ nl) = "".
Proof. repeat split; reflexivity. Qed.

(** ** Directory filter *)

(** C8: the override returns true for "build" and for "node_modules", and
    for every name the inherited filter ignores: it only extends the
    ignored set. *)
Theorem is_ignored_dirname_extends (super : string → bool) (dirname : string) :
  dirname = "build" ∨ dirname = "node_modules" ∨ super dirname = true →
  is_ignored_dirname super dirname = true.
Proof.
  unfold is_ignored_dirname.
  intros [-> | [-> | Hsuper]].
  - apply orb_true_r.
  - apply orb_true_r.
  - rewrite Hsuper. reflexivity.
Qed.

Lemma is_ignored_dirname_extends_witness :
  is_ignored_dirname (String.prefix ".") "build" = true
  ∧ is_ignored_dirname (String.prefix ".") "node_modules" = true
  ∧ is_ignored_dirname (String.prefix ".") ".git" = true.
Proof.
  split; [| split]; apply is_ignored_dirname_extends.
  - left. reflexivity.
  - right. left. reflexivity.
  - right. right. reflexivity.
Defined.

(** The override adds nothing else: any other name is ignored exactly
    when the inherited filter ignores it. *)
Lemma is_ignored_dirname_other (super : string → bool) (dirname : string) :
  dirname ≠ "build" → dirname ≠ "node_modules" →
  is_ignored_dirname super dirname = super dirname.
Proof.
  intros Hb Hn. unfold is_ignored_dirname. simpl.
  apply String.eqb_neq in Hb, Hn. rewrite Hb, Hn.
  rewrite !orb_false_r. reflexivity.
Qed.

(** ** The probe *)

Lemma str_or_nonempty (x y : string) : y ≠ "" → str_or x y ≠ "".
Proof.
  intros Hy. unfold str_or. simpl.
  destruct (String.eqb x "") eqn:E; simpl; [exact Hy |].
  apply String.eqb_neq. exact E.
Qed.

Lemma _get_qmlls_version_completed (cp : CompletedProcess) :
  _get_qmlls_version (Ok cp) =
    if (returncode cp =? 0)%Z
    then Ok (Some (str_or (strip (stdout cp)) "qmlls available"))
    else Ok None.
Proof. reflexivity. Qed.

(** Any exception of the launch other than [FileNotFoundError] is not
    caught by the probe. *)
Lemma _get_qmlls_version_other_exception (e : exn) :
  e ≠ FileNotFoundError → _get_qmlls_version (Raise e) = Raise e.
Proof. intros He. destruct e; try reflexivity. contradiction. Qed.

(** C9: whatever the probe returns is [None] or a non-empty string; it
    returns [None] when the binary is absent or [--help] exits with a
    nonzero code, a non-empty string when it exits with zero, and the fixed
    string "qmlls available" when the output is then empty. *)
Theorem _get_qmlls_version_none_or_nonempty (run : result CompletedProcess) :
  (∀ v, _get_qmlls_version run = Ok v → v = None ∨ ∃ s, v = Some s ∧ s ≠ "")
  ∧ _get_qmlls_version (Raise FileNotFoundError) = Ok None
  ∧ (∀ cp, returncode cp ≠ 0 → _get_qmlls_version (Ok cp) = Ok None)
  ∧ (∀ cp, returncode cp = 0 →
       ∃ s, _get_qmlls_version (Ok cp) = Ok (Some s) ∧ s ≠ "")
  ∧ (∀ cp, returncode cp = 0 → stdout cp = "" →
       _get_qmlls_version (Ok cp) = Ok (Some "qmlls available")).
Proof.
  repeat split.
  - intros v Hv. destruct run as [cp | e].
    + rewrite _get_qmlls_version_completed in Hv.
      destruct (returncode cp =? 0)%Z; inversion Hv; subst; [right | left; reflexivity].
      eexists. split; [reflexivity |]. apply str_or_nonempty. discriminate.
    + destruct e; simpl in Hv; inversion Hv. left. reflexivity.
  - intros cp Hrc. rewrite _get_qmlls_version_completed.
    apply Z.eqb_neq in Hrc. rewrite Hrc. reflexivity.
  - intros cp Hrc. rewrite _get_qmlls_version_completed, Hrc. simpl.
    eexists. split; [reflexivity |]. apply str_or_nonempty. discriminate.
  - intros cp Hrc Hout. rewrite _get_qmlls_version_completed, Hrc, Hout. reflexivity.
Qed.

Lemma _get_qmlls_version_none_or_nonempty_witness :
  _get_qmlls_version (Ok {| returncode := 0; stdout := "" |}) = Ok (Some "qmlls available")
  ∧ _get_qmlls_version (Ok {| returncode := 1; stdout := "usage" |}) = Ok None
  ∧ (Some "6.7" = None ∨ ∃ s, Some "6.7" = Some s ∧ s ≠ "").
Proof.
  pose proof (_get_qmlls_version_none_or_nonempty (Ok {| returncode := 0; stdout := " 6.7 " |}))
    as (Hreturned & _ & Hnonzero & _ & Hempty).
  split; [apply Hempty; reflexivity |].
  split; [apply Hnonzero; discriminate |].
  apply Hreturned. reflexivity.
Defined.

Lemma _setup_runtime_dependency_completed (cp : CompletedProcess) :
  _setup_runtime_dependency (Ok cp) =
    if (returncode cp =? 0)%Z then Ok true
    else Raise (RuntimeError qmlls_missing_message).
Proof.
  unfold _setup_runtime_dependency. rewrite _get_qmlls_version_completed.
  destruct (returncode cp =? 0)%Z; [| reflexivity].
  simpl. pose proof (str_or_nonempty (strip (stdout cp)) "qmlls available") as Hne.
  destruct (String.eqb (str_or (strip (stdout cp)) "qmlls available") "") eqn:E.
  - apply String.eqb_eq in E. exfalso. apply Hne; [discriminate | exact E].
  - reflexivity.
Qed.

Lemma _setup_runtime_dependency_not_found :
  _setup_runtime_dependency (Raise FileNotFoundError)
  = Raise (RuntimeError qmlls_missing_message).
Proof. reflexivity. Qed.

(** ** The launch command *)

Lemma absolute_under_str (root p : string) :
  absolute_under root (PStr p) = Ok (made_absolute root p).
Proof.
  unfold absolute_under, made_absolute. simpl.
  destruct (posixpath.isabs p); reflexivity.
Qed.

Lemma for_import_paths_strs (root : string) (items : list pyval) :
  forallb is_str items = true →
  ∀ cmd, for_import_paths root items cmd
         = Ok (cmd ++ import_arguments root (PList items)).
Proof.
  induction items as [| v items IH]; intros Hstr cmd0; simpl.
  - rewrite app_nil_r. reflexivity.
  - simpl in Hstr. apply andb_prop in Hstr as [Hv Hitems].
    destruct v; try discriminate.
    rewrite absolute_under_str. simpl.
    rewrite (IH Hitems). simpl. rewrite <- app_assoc. reflexivity.
Qed.

(** One path setting, as the constructor treats it (lines 76-80, 95-99). *)
Lemma path_setting_step (flag root : string) (v : pyval) (cmd0 : list string) :
  is_path_setting v = true →
  (if truthy v
   then p ← absolute_under root v; Ok (cmd0 ++ [flag; p])
   else Ok cmd0)
  = Ok (cmd0 ++ path_arguments flag root v).
Proof.
  intros Hv. destruct v; try discriminate; simpl.
  - rewrite app_nil_r. reflexivity.
  - destruct (String.eqb s ""); simpl.
    + rewrite app_nil_r. reflexivity.
    + rewrite absolute_under_str. reflexivity.
Qed.

Lemma import_paths_step (root : string) (v : pyval) (cmd0 : list string) :
  is_path_list_setting v = true →
  (if truthy v
   then items ← py_iter v; for_import_paths root items cmd0
   else Ok cmd0)
  = Ok (cmd0 ++ import_arguments root v).
Proof.
  intros Hv. destruct v; try discriminate.
  - simpl. rewrite app_nil_r. reflexivity.
  - destruct l as [| e l].
    + simpl. rewrite app_nil_r. reflexivity.
    + change (truthy (PList (e :: l))) with true. cbv iota.
      change (py_iter (PList (e :: l))) with (Ok (e :: l)).
      exact (for_import_paths_strs root (e :: l) Hv cmd0).
Qed.

(** The constructor's sequence of tests and appends refines the documented
    mapping. *)
Lemma __init___documented_cmd (run : result CompletedProcess) (root : string)
    (qml_settings : gmap string pyval) :
  _setup_runtime_dependency run = Ok true →
  documented_types qml_settings = true →
  __init__ run root qml_settings
  = Ok {| repository_root_path := root;
          process_launch_info :=
            {| cmd := documented_cmd root qml_settings; cwd := root |};
          language_id := "qml";
          request_id := 0 |}.
Proof.
  intros Hdep Htypes. unfold documented_types in Htypes.
  apply andb_prop in Htypes as [Htypes Hdoc].
  apply andb_prop in Htypes as [Hbuild Himports].
  unfold __init__. rewrite Hdep. cbn [mbind result_bind].
  rewrite (path_setting_step "--build-dir" root _ ["qmlls"] Hbuild).
  cbn [mbind result_bind].
  rewrite (import_paths_step root _ _ Himports).
  cbn [mbind result_bind].
  unfold documented_cmd, flag_argument.
  destruct (truthy (dict_get qml_settings "use_environment_import_paths"));
    destruct (truthy (dict_get qml_settings "no_cmake_calls"));
    rewrite (path_setting_step "-d" root _ _ Hdoc);
    cbn [mbind result_bind]; repeat f_equal;
    rewrite <- ?app_assoc; simpl; rewrite ?app_nil_r; reflexivity.
Qed.

Lemma path_accepted_step (flag root : string) (v : pyval) (cmd0 : list string) :
  path_accepted v = true →
  (if truthy v
   then p ← absolute_under root v; Ok (cmd0 ++ [flag; p])
   else Ok cmd0)
  = Ok (cmd0 ++ path_arguments flag root v).
Proof.
  unfold path_accepted. intros Hv.
  destruct v; try (apply path_setting_step; reflexivity);
    cbn [is_str] in Hv; rewrite orb_false_r in Hv; apply negb_true_iff in Hv;
    rewrite Hv; cbn [path_arguments]; rewrite app_nil_r; reflexivity.
Qed.

Lemma paths_accepted_step (root : string) (v : pyval) (cmd0 : list string) :
  paths_accepted v = true →
  (if truthy v
   then items ← py_iter v; for_import_paths root items cmd0
   else Ok cmd0)
  = Ok (cmd0 ++ entry_arguments root v).
Proof.
  unfold paths_accepted, entry_arguments, entries. intros Hv.
  destruct (truthy v); [| rewrite app_nil_r; reflexivity].
  destruct (py_iter v) as [items | e]; [| discriminate].
  cbn [mbind result_bind]. exact (for_import_paths_strs root items Hv cmd0).
Qed.

(** The constructor on settings it gets past. *)
Lemma __init___accepted (run : result CompletedProcess) (root : string)
    (qml_settings : gmap string pyval) :
  _setup_runtime_dependency run = Ok true →
  accepted qml_settings = true →
  __init__ run root qml_settings
  = Ok {| repository_root_path := root;
          process_launch_info :=
            {| cmd := ["qmlls"]
                      ++ path_arguments "--build-dir" root
                           (dict_get qml_settings "build_dir")
                      ++ entry_arguments root (dict_get qml_settings "import_paths")
                      ++ flag_argument "-E"
                           (dict_get qml_settings "use_environment_import_paths")
                      ++ flag_argument "--no-cmake-calls"
                           (dict_get qml_settings "no_cmake_calls")
                      ++ path_arguments "-d" root (dict_get qml_settings "doc_dir");
               cwd := root |};
          language_id := "qml";
          request_id := 0 |}.
Proof.
  intros Hdep Haccepted. unfold accepted in Haccepted.
  apply andb_prop in Haccepted as [Haccepted Hdoc].
  apply andb_prop in Haccepted as [Hbuild Himports].
  unfold __init__. rewrite Hdep. cbn [mbind result_bind].
  rewrite (path_accepted_step "--build-dir" root _ ["qmlls"] Hbuild).
  cbn [mbind result_bind].
  rewrite (paths_accepted_step root _ _ Himports).
  cbn [mbind result_bind].
  unfold flag_argument.
  destruct (truthy (dict_get qml_settings "use_environment_import_paths"));
    destruct (truthy (dict_get qml_settings "no_cmake_calls"));
    rewrite (path_accepted_step "-d" root _ _ Hdoc);
    cbn [mbind result_bind];
    match goal with
    | |- Ok {| repository_root_path := _;
               process_launch_info := {| cmd := ?built; cwd := _ |};
               language_id := _; request_id := _ |}
         = Ok {| repository_root_path := _;
                 process_launch_info := {| cmd := ?documented; cwd := _ |};
                 language_id := _; request_id := _ |} =>
        replace built with documented; [reflexivity |]
    end;
    rewrite <- ?app_assoc; simpl; rewrite ?app_nil_r; reflexivity.
Qed.

Lemma path_rejected (root : string) (v : pyval) :
  path_accepted v = false →
  truthy v = true ∧ absolute_under root v = Raise TypeError.
Proof.
  unfold path_accepted. intros Hv. apply orb_false_elim in Hv as [Htruthy Hstr].
  apply negb_false_iff in Htruthy. split; [exact Htruthy |].
  destruct v; simpl in *; try discriminate; reflexivity.
Qed.

Lemma for_import_paths_not_strs (root : string) (items : list pyval) :
  forallb is_str items = false →
  ∀ cmd, for_import_paths root items cmd = Raise TypeError.
Proof.
  induction items as [| v items IH]; [discriminate |]. intros Hstr cmd0.
  cbn [forallb] in Hstr. cbn [for_import_paths].
  destruct v; try reflexivity.
  rewrite absolute_under_str. cbn [mbind result_bind]. apply IH. exact Hstr.
Qed.

Lemma paths_rejected (root : string) (v : pyval) (cmd0 : list string) :
  paths_accepted v = false →
  (if truthy v
   then items ← py_iter v; for_import_paths root items cmd0
   else Ok cmd0)
  = Raise TypeError.
Proof.
  unfold paths_accepted. intros Hv. apply orb_false_elim in Hv as [Htruthy Hitems].
  apply negb_false_iff in Htruthy. rewrite Htruthy.
  destruct (py_iter v) as [items | e] eqn:Hiter.
  - cbn [mbind result_bind]. exact (for_import_paths_not_strs root items Hitems cmd0).
  - assert (e = TypeError) as -> by (destruct v; simpl in Hiter; congruence).
    reflexivity.
Qed.

(** The constructor on any other settings. *)
Lemma __init___rejected (run : result CompletedProcess) (root : string)
    (qml_settings : gmap string pyval) :
  _setup_runtime_dependency run = Ok true →
  accepted qml_settings = false →
  __init__ run root qml_settings = Raise TypeError.
Proof.
  intros Hdep Hrejected. unfold __init__. rewrite Hdep. cbn [mbind result_bind].
  unfold accepted in Hrejected.
  destruct (path_accepted (dict_get qml_settings "build_dir")) eqn:Hbuild.
  2: { destruct (path_rejected root _ Hbuild) as [-> ->]. reflexivity. }
  rewrite (path_accepted_step "--build-dir" root _ ["qmlls"] Hbuild).
  cbn [mbind result_bind].
  destruct (paths_accepted (dict_get qml_settings "import_paths")) eqn:Himports.
  2: { rewrite (paths_rejected root _ _ Himports). reflexivity. }
  rewrite (paths_accepted_step root _ _ Himports). cbn [mbind result_bind].
  cbn [andb] in Hrejected.
  destruct (path_rejected root _ Hrejected) as [-> ->]. reflexivity.
Qed.

Lemma _setup_runtime_dependency_true (run : result CompletedProcess) (b : bool) :
  _setup_runtime_dependency run = Ok b → b = true.
Proof.
  destruct run as [cp | e].
  - rewrite _setup_runtime_dependency_completed.
    destruct (returncode cp =? 0)%Z; [intros [= <-]; reflexivity | discriminate].
  - destruct e; discriminate.
Qed.

Lemma __init___returns (run : result CompletedProcess) (root : string)
    (qml_settings : gmap string pyval) (self : QmlLanguageServer) :
  __init__ run root qml_settings = Ok self →
  _setup_runtime_dependency run = Ok true ∧ accepted qml_settings = true.
Proof.
  intros Hinit.
  assert (Hdep : _setup_runtime_dependency run = Ok true).
  { unfold __init__ in Hinit.
    destruct (_setup_runtime_dependency run) as [b |] eqn:E; [| discriminate].
    rewrite (_setup_runtime_dependency_true run b E). reflexivity. }
  split; [exact Hdep |].
  destruct (accepted qml_settings) eqn:E; [reflexivity |].
  rewrite (__init___rejected run root qml_settings Hdep E) in Hinit. discriminate.
Qed.

(** C5: for every settings dictionary, the launch specification the
    constructor builds has "qmlls" first, then the arguments of
    [build_dir], of the entries of [import_paths], of
    [use_environment_import_paths], of [no_cmake_calls] and of [doc_dir] in
    this order, a falsy or absent setting contributing none, and the
    repository root as working directory; and it builds one exactly when
    the dependency check passes and no truthy setting has a value it
    cannot use as a path. *)
Theorem __init___launch_spec (run : result CompletedProcess) (root : string)
    (qml_settings : gmap string pyval) :
  (∀ self,
     __init__ run root qml_settings = Ok self →
     hd_error (cmd (process_launch_info self)) = Some "qmlls"
     ∧ cwd (process_launch_info self) = root
     ∧ cmd (process_launch_info self) =
         ["qmlls"]
         ++ path_arguments "--build-dir" root (dict_get qml_settings "build_dir")
         ++ entry_arguments root (dict_get qml_settings "import_paths")
         ++ flag_argument "-E" (dict_get qml_settings "use_environment_import_paths")
         ++ flag_argument "--no-cmake-calls" (dict_get qml_settings "no_cmake_calls")
         ++ path_arguments "-d" root (dict_get qml_settings "doc_dir"))
  ∧ ((∃ self, __init__ run root qml_settings = Ok self)
     ↔ _setup_runtime_dependency run = Ok true ∧ accepted qml_settings = true).
Proof.
  split.
  - intros self Hinit.
    destruct (__init___returns run root qml_settings self Hinit) as [Hdep Haccepted].
    rewrite (__init___accepted run root qml_settings Hdep Haccepted) in Hinit.
    inversion Hinit; subst. repeat split; reflexivity.
  - split.
    + intros [self Hinit]. exact (__init___returns run root qml_settings self Hinit).
    + intros [Hdep Haccepted]. eexists.
      exact (__init___accepted run root qml_settings Hdep Haccepted).
Qed.

Lemma __init___launch_spec_witness :
  _setup_runtime_dependency help_ok = Ok true
  ∧ accepted loose_settings = true
  ∧ ∃ self,
      __init__ help_ok "/home/u/proj" loose_settings = Ok self
      ∧ cwd (process_launch_info self) = "/home/u/proj"
      ∧ cmd (process_launch_info self)
        = ["qmlls"; "-I"; "/home/u/proj/libs"; "-I"; "/opt/qml"; "-E";
           "-d"; "/home/u/proj/docs"].
Proof.
  split; [reflexivity |]. split; [reflexivity |].
  destruct (__init___launch_spec help_ok "/home/u/proj" loose_settings)
    as [Hshape Hreturns].
  destruct (proj2 Hreturns) as [self Hinit]; [split; reflexivity |].
  exists self. split; [exact Hinit |].
  destruct (Hshape self Hinit) as (_ & Hcwd & Hcmd).
  split; [exact Hcwd |]. rewrite Hcmd. reflexivity.
Defined.

Example documented_cmd_sample :
  documented_cmd "/home/u/proj" sample_settings
  = ["qmlls"; "--build-dir"; "/home/u/proj/build";
     "-I"; "/opt/qml"; "-I"; "/home/u/proj/imports"; "--no-cmake-calls"].
Proof. reflexivity. Qed.

Example documented_cmd_no_settings (root : string) :
  documented_cmd root ∅ = ["qmlls"].
Proof. reflexivity. Qed.

(** A setting of another type than documented stops the constructor. *)
Example __init___build_dir_not_a_path :
  __init__ help_ok "/home/u/proj" (<["build_dir" := PInt 5]> ∅) = Raise TypeError.
Proof. reflexivity. Qed.

(** ** The dependency check in the constructor *)

Lemma absolute_under_raises (root : string) (v : pyval) (e : exn) :
  absolute_under root v = Raise e → e = TypeError.
Proof.
  destruct v; simpl; try (intros H; inversion H; reflexivity).
  rewrite absolute_under_str. discriminate.
Qed.

Lemma for_import_paths_raises (root : string) (items : list pyval) (e : exn) :
  ∀ cmd, for_import_paths root items cmd = Raise e → e = TypeError.
Proof.
  induction items as [| v items IH]; intros cmd0; simpl.
  - discriminate.
  - destruct (absolute_under root v) as [p | e'] eqn:E; simpl.
    + apply IH.
    + intros H. inversion H; subst. exact (absolute_under_raises _ _ _ E).
Qed.

Lemma py_iter_raises (v : pyval) (e : exn) : py_iter v = Raise e → e = TypeError.
Proof. destruct v; simpl; intros H; inversion H; reflexivity. Qed.

(** Past the dependency check the constructor raises nothing but the
    [TypeError] of an ill-typed setting. *)
Lemma __init___raises_after_check (run : result CompletedProcess) (root : string)
    (qml_settings : gmap string pyval) (e : exn) :
  _setup_runtime_dependency run = Ok true →
  __init__ run root qml_settings = Raise e → e = TypeError.
Proof.
  intros Hdep. unfold __init__. rewrite Hdep. cbn [mbind result_bind].
  repeat match goal with
    | |- context [if truthy ?v then _ else _] => destruct (truthy v)
    | |- context [absolute_under ?r ?v] => destruct (absolute_under r v) eqn:?
    | |- context [py_iter ?v] => destruct (py_iter v) eqn:?
    | |- context [for_import_paths ?r ?i ?c] => destruct (for_import_paths r i c) eqn:?
    | _ => progress cbn [mbind result_bind]
    end;
    intros H; inversion H; subst;
    eauto using absolute_under_raises, py_iter_raises, for_import_paths_raises.
Qed.

(** C4, as stated, fails: a qmlls that is found but whose [--help] exits
    with code 1 is reported as missing, and construction fails in the
    dependency check. *)
Lemma found_but_help_fails_is_rejected :
  executable_found (Ok {| returncode := 1; stdout := "" |})
  ∧ _setup_runtime_dependency (Ok {| returncode := 1; stdout := "" |})
    = Raise (RuntimeError qmlls_missing_message)
  ∧ __init__ (Ok {| returncode := 1; stdout := "" |}) "/home/u/proj" ∅
    = Raise (RuntimeError qmlls_missing_message).
Proof.
  split; [eexists; reflexivity |]. split; reflexivity.
Qed.

(** C4, amended: as long as the probe's [subprocess.run] completes or
    fails with [FileNotFoundError], the probe never raises and the
    dependency check fails, if at all, with one [RuntimeError].  When qmlls
    is not found, or is found but [--help] exits with a nonzero code, the
    probe returns [None] and the constructor fails with that error, building
    nothing; when [--help] exits with zero the probe returns a version, the
    dependency check passes and the constructor raises no [RuntimeError]. *)
Theorem dependency_check_outcomes (root : string) (qml_settings : gmap string pyval) :
  (_get_qmlls_version (Raise FileNotFoundError) = Ok None
   ∧ __init__ (Raise FileNotFoundError) root qml_settings
     = Raise (RuntimeError qmlls_missing_message))
  ∧ (∀ cp, returncode cp ≠ 0 →
       _get_qmlls_version (Ok cp) = Ok None
       ∧ __init__ (Ok cp) root qml_settings
         = Raise (RuntimeError qmlls_missing_message))
  ∧ (∀ cp, returncode cp = 0 →
       (∃ version, _get_qmlls_version (Ok cp) = Ok (Some version))
       ∧ _setup_runtime_dependency (Ok cp) = Ok true
       ∧ (∀ msg, __init__ (Ok cp) root qml_settings ≠ Raise (RuntimeError msg))
       ∧ (documented_types qml_settings = true →
          ∃ self, __init__ (Ok cp) root qml_settings = Ok self)).
Proof.
  split; [split; reflexivity |]. split.
  - intros cp Hrc. apply Z.eqb_neq in Hrc. split.
    + rewrite _get_qmlls_version_completed, Hrc. reflexivity.
    + unfold __init__. rewrite _setup_runtime_dependency_completed, Hrc. reflexivity.
  - intros cp Hrc.
    assert (Hdep : _setup_runtime_dependency (Ok cp) = Ok true).
    { rewrite _setup_runtime_dependency_completed, Hrc. reflexivity. }
    split; [rewrite _get_qmlls_version_completed, Hrc; eexists; reflexivity |].
    split; [exact Hdep |]. split.
    + intros msg Hraise.
      apply (__init___raises_after_check _ _ _ _ Hdep) in Hraise. discriminate.
    + intros Htypes. eexists. apply __init___documented_cmd; assumption.
Qed.

Lemma dependency_check_outcomes_witness :
  returncode {| returncode := 0; stdout := "" |} = 0
  ∧ _setup_runtime_dependency (Ok {| returncode := 0; stdout := "" |}) = Ok true
  ∧ documented_types sample_settings = true
  ∧ (∃ self, __init__ (Ok {| returncode := 0; stdout := "" |}) "/home/u/proj"
               sample_settings = Ok self)
  ∧ returncode {| returncode := 2; stdout := "" |} ≠ 0
  ∧ __init__ (Ok {| returncode := 2; stdout := "" |}) "/home/u/proj" sample_settings
    = Raise (RuntimeError qmlls_missing_message).
Proof.
  pose proof (dependency_check_outcomes "/home/u/proj" sample_settings)
    as (_ & Hnonzero & Hzero).
  destruct (Hzero {| returncode := 0; stdout := "" |}) as (_ & Hdep & _ & Hbuilt);
    [reflexivity |].
  split; [reflexivity |]. split; [exact Hdep |]. split; [reflexivity |].
  split; [apply Hbuilt; reflexivity |].
  split; [discriminate |]. apply Hnonzero. discriminate.
Defined.

(** ** The initialize parameters *)

Lemma is_absolute_isabs (p : string) :
  pathlib.is_absolute p = posixpath.isabs p.
Proof.
  unfold pathlib.is_absolute, pathlib.splitroot, posixpath.isabs, startswith_sep.
  destruct p as [| c1 r1]; [reflexivity |].
  destruct (Ascii.eqb c1 "/"); [| reflexivity].
  destruct r1 as [| c2 r2]; [reflexivity |].
  destruct (Ascii.eqb c2 "/"); [| reflexivity].
  destruct r2 as [| c3 r3]; [reflexivity |].
  simpl. destruct (Ascii.eqb c3 "/"); reflexivity.
Qed.

Lemma as_uri_absolute (p : string) :
  posixpath.isabs p = true →
  pathlib.as_uri p = Ok ("file://" +:+ pathlib.quote (pathlib.as_posix p)).
Proof.
  intros Habs. unfold pathlib.as_uri. rewrite is_absolute_isabs, Habs. reflexivity.
Qed.

Lemma as_uri_relative (p : string) :
  posixpath.isabs p = false → pathlib.as_uri p = Raise ValueError.
Proof.
  intros Hrel. unfold pathlib.as_uri. rewrite is_absolute_isabs, Hrel. reflexivity.
Qed.

(** The builder returns exactly when the path has a file URI. *)
Lemma _get_initialize_params_returns (pid : Z) (path : string) (params : pyval) :
  _get_initialize_params pid path = Ok params →
  ∃ uri, pathlib.as_uri path = Ok uri.
Proof.
  unfold _get_initialize_params.
  destruct (pathlib.as_uri path) as [uri | e]; [eauto | discriminate].
Qed.

(** C6: for an absolute repository path the builder returns a payload
    whose rootPath is the path, whose rootUri is the path's file URI,
    whose workspaceFolders is one folder with that URI and the path's
    basename as name, and whose processId is the current process id. *)
Theorem _get_initialize_params_workspace (pid : Z) (path : string) :
  posixpath.isabs path = true →
  ∃ uri params,
    pathlib.as_uri path = Ok uri
    ∧ _get_initialize_params pid path = Ok params
    ∧ getitem params "rootPath" = Ok (PStr path)
    ∧ getitem params "rootUri" = Ok (PStr uri)
    ∧ getitem params "workspaceFolders"
      = Ok (PList [PDict [("uri", PStr uri);
                          ("name", PStr (posixpath.basename path))]])
    ∧ getitem params "processId" = Ok (PInt pid).
Proof.
  intros Habs. unfold _get_initialize_params.
  rewrite (as_uri_absolute path Habs). cbn [mbind result_bind].
  eexists. eexists. split; [reflexivity |]. split; [reflexivity |].
  repeat split; reflexivity.
Qed.

Lemma _get_initialize_params_workspace_witness :
  posixpath.isabs "/home/u/my proj" = true
  ∧ ∃ params,
      _get_initialize_params 4242 "/home/u/my proj" = Ok params
      ∧ getitem params "rootPath" = Ok (PStr "/home/u/my proj")
      ∧ getitem params "rootUri" = Ok (PStr "file:///home/u/my%20proj")
      ∧ getitem params "workspaceFolders"
        = Ok (PList [PDict [("uri", PStr "file:///home/u/my%20proj");
                            ("name", PStr "my proj")]])
      ∧ getitem params "processId" = Ok (PInt 4242).
Proof.
  split; [reflexivity |].
  destruct (_get_initialize_params_workspace 4242 "/home/u/my proj")
    as (uri & params & Huri & Hparams & Hpath & Hroot & Hfolders & Hpid);
    [reflexivity |].
  assert (Heq : uri = "file:///home/u/my%20proj").
  { vm_compute in Huri. inversion Huri. reflexivity. }
  subst uri. exists params.
  split; [exact Hparams |]. split; [exact Hpath |]. split; [exact Hroot |].
  split; [exact Hfolders | exact Hpid].
Defined.

Lemma elem_of_py_range (lo hi k : Z) :
  k ∈ py_range lo hi ↔ (lo ≤ k < hi)%Z.
Proof.
  unfold py_range. rewrite list_elem_of_In, in_map_iff. split.
  - intros (i & <- & Hi). apply in_seq in Hi. lia.
  - intros Hk. exists (Z.to_nat (k - lo)). split; [lia |].
    apply in_seq. lia.
Qed.

Lemma NoDup_py_range (lo hi : Z) : NoDup (py_range lo hi).
Proof.
  unfold py_range. apply NoDup_fmap_2.
  - intros i j Hij. lia.
  - apply NoDup_ListNoDup, seq_NoDup.
Qed.

(** C10: whatever payload the builder returns (it returns one for every
    absolute path) announces hierarchical document symbols, didSave
    synchronization, and as symbol kinds the integers 1 to 26, each once. *)
Theorem _get_initialize_params_capabilities (pid : Z) (path : string) :
  (posixpath.isabs path = true →
   ∃ params, _get_initialize_params pid path = Ok params)
  ∧ ∀ params, _get_initialize_params pid path = Ok params →
      get_path ["capabilities"; "textDocument"; "documentSymbol";
                "hierarchicalDocumentSymbolSupport"] params = Ok (PBool true)
      ∧ get_path ["capabilities"; "textDocument"; "synchronization"; "didSave"] params
        = Ok (PBool true)
      ∧ ∃ kinds,
          get_path ["capabilities"; "textDocument"; "documentSymbol";
                    "symbolKind"; "valueSet"] params = Ok (PList (map PInt kinds))
          ∧ NoDup kinds
          ∧ ∀ k : Z, k ∈ kinds ↔ (1 ≤ k ≤ 26)%Z.
Proof.
  split.
  - intros Habs. unfold _get_initialize_params.
    rewrite (as_uri_absolute path Habs). eexists. reflexivity.
  - intros params. unfold _get_initialize_params.
    destruct (pathlib.as_uri path) as [uri | e]; [| discriminate].
    cbn [mbind result_bind]. intros Hparams. inversion Hparams; subst; clear Hparams.
    split; [reflexivity |]. split; [reflexivity |].
    exists (py_range 1 27). split; [reflexivity |]. split.
    + apply NoDup_py_range.
    + intros k. rewrite elem_of_py_range. lia.
Qed.

Lemma _get_initialize_params_capabilities_witness :
  posixpath.isabs "/home/u/proj" = true
  ∧ ∃ params,
      _get_initialize_params 4242 "/home/u/proj" = Ok params
      ∧ get_path ["capabilities"; "textDocument"; "documentSymbol";
                  "hierarchicalDocumentSymbolSupport"] params = Ok (PBool true)
      ∧ get_path ["capabilities"; "textDocument"; "synchronization"; "didSave"] params
        = Ok (PBool true).
Proof.
  split; [reflexivity |].
  destruct (_get_initialize_params_capabilities 4242 "/home/u/proj") as [Hret Hcaps].
  destruct Hret as [params Hparams]; [reflexivity |].
  exists params. split; [exact Hparams |].
  destruct (Hcaps params Hparams) as (Hhier & Hsave & _).
  split; [exact Hhier | exact Hsave].
Defined.

(** ** The startup sequence *)

Lemma extend_nil (w : world) : extend w [] = w.
Proof. destruct w. unfold extend. simpl. rewrite app_nil_r. reflexivity. Qed.

Lemma extend_extend (w : world) (evs1 evs2 : list event) :
  extend (extend w evs1) evs2 = extend w (evs1 ++ evs2).
Proof. unfold extend. simpl. rewrite app_assoc. reflexivity. Qed.

Lemma record_run (e : event) (w : world) : record e w = (Ok (), extend w [e]).
Proof. reflexivity. Qed.

Lemma run_handler_run (h : handler) (params : pyval) (w : world) :
  run_handler h params w = (Ok (), extend w (handler_events h params)).
Proof.
  destruct h; simpl; unfold mret, M_ret; rewrite ?extend_nil; reflexivity.
Qed.

Lemma dispatch_run (m : message) (w : world) :
  dispatch m w
  = (Ok (), extend w (dispatch_events (request_handlers w) (notification_handlers w) m)).
Proof.
  destruct m as [id method params | id res | id code msg | method params];
    unfold dispatch, dispatch_events; try apply record_run.
  - destruct (request_handlers w !! method) as [h |]; [| apply record_run].
    unfold mbind, M_bind. rewrite run_handler_run, !record_run, !extend_extend.
    reflexivity.
  - destruct (notification_handlers w !! method) as [h |]; [| apply record_run].
    unfold mbind, M_bind. rewrite run_handler_run, record_run, extend_extend.
    reflexivity.
Qed.

(** Dispatching never fails and never touches the handler tables. *)
Lemma dispatch_all_run (ms : list message) (w : world) :
  dispatch_all ms w
  = (Ok (),
     extend w (flat_map (dispatch_events (request_handlers w) (notification_handlers w)) ms)).
Proof.
  revert w. induction ms as [| m ms IH]; intros w; simpl.
  - unfold mret, M_ret. rewrite extend_nil. reflexivity.
  - unfold mbind, M_bind. rewrite dispatch_run, IH, extend_extend. reflexivity.
Qed.

Lemma _start_server_spawn_fails env pid self w e :
  spawn env = Raise e →
  _start_server env pid self w = (Raise e, prepared w).
Proof.
  intros Hspawn. run_startup. rewrite Hspawn.
  unfold prepared, registrations. rewrite <- !app_assoc. reflexivity.
Qed.

Lemma _start_server_no_params env pid self w u e :
  spawn env = Ok u →
  _get_initialize_params pid (repository_root_path self) = Raise e →
  _start_server env pid self w = (Raise e, started w).
Proof.
  intros Hspawn Hparams. run_startup. rewrite Hspawn, Hparams.
  unfold started, prepared, registrations.
  cbn [history request_handlers notification_handlers running next_id].
  rewrite <- !app_assoc. reflexivity.
Qed.

Lemma _start_server_handshake env pid self w u params :
  spawn env = Ok u →
  _get_initialize_params pid (repository_root_path self) = Ok params →
  _start_server env pid self w = validate (reply env) (awaiting env params w).
Proof.
  intros Hspawn Hparams. run_startup. rewrite Hspawn, Hparams, dispatch_all_run.
  unfold awaiting, handshake_events, prepared, registrations, extend.
  cbn [history request_handlers notification_handlers running next_id].
  rewrite <- !app_assoc. reflexivity.
Qed.

Lemma validate_failed (e : exn) (w : world) : validate (Raise e) w = (Raise e, w).
Proof. reflexivity. Qed.

Lemma validate_response (init_response : pyval) (w : world) :
  validate (Ok init_response) w =
    match capability_check init_response with
    | Ok _ => (Ok (), extend w [Sent (Notification "initialized" (PDict []))])
    | Raise e => (Raise e, w)
    end.
Proof.
  unfold capability_check. run_startup.
  destruct (getitem init_response "capabilities") as [caps | e]; [| reflexivity].
  cbn [mbind result_bind].
  destruct (py_contains "textDocumentSync" caps) as [[|] | e]; reflexivity.
Qed.

Lemma capability_check_dict (init_response : pyval) (caps : list (string * pyval)) :
  getitem init_response "capabilities" = Ok (PDict caps) →
  capability_check init_response =
    if existsb (fun kv => String.eqb (fst kv) "textDocumentSync") caps
    then Ok () else Raise AssertionError.
Proof. intros Hcaps. unfold capability_check. rewrite Hcaps. reflexivity. Qed.

Lemma existsb_key_false (k : string) (d : list (string * pyval)) :
  k ∉ d.*1 → existsb (fun kv => String.eqb (fst kv) k) d = false.
Proof.
  induction d as [| [k' v] d IH]; simpl; [reflexivity |].
  intros Hk. apply not_elem_of_cons in Hk as [Hne Hk].
  rewrite (IH Hk), orb_false_r. apply String.eqb_neq. congruence.
Qed.

Lemma _get_initialize_params_absolute (pid : Z) (path : string) :
  posixpath.isabs path = true →
  ∃ params, _get_initialize_params pid path = Ok params.
Proof.
  intros Habs. unfold _get_initialize_params.
  rewrite (as_uri_absolute path Habs). eexists. reflexivity.
Qed.

Lemma sent_messages_app (evs1 evs2 : list event) :
  sent_messages (evs1 ++ evs2) = sent_messages evs1 ++ sent_messages evs2.
Proof. apply omap_app. Qed.

Lemma sent_messages_handler_events (h : handler) (params : pyval) :
  sent_messages (handler_events h params) = [].
Proof. destruct h; reflexivity. Qed.

(** While the client waits, it writes nothing but responses. *)
Lemma dispatch_sends_responses (rq nt : gmap string handler) (ms : list message) :
  forallb is_response (sent_messages (flat_map (dispatch_events rq nt) ms)) = true.
Proof.
  induction ms as [| m ms IH]; [reflexivity |].
  cbn [flat_map]. rewrite sent_messages_app, forallb_app, IH, andb_true_r.
  destruct m as [id method params | id res | id code msg | method params];
    unfold dispatch_events; try reflexivity.
  - destruct (rq !! method) as [h |]; [| reflexivity].
    rewrite sent_messages_app, sent_messages_handler_events. reflexivity.
  - destruct (nt !! method) as [h |]; [| reflexivity].
    rewrite sent_messages_app, sent_messages_handler_events. reflexivity.
Qed.

(** After the registrations, each default handler is the one in the table. *)
Lemma prepared_dispatches (w : world) (m : message) (h : handler) :
  default_handler m = Some h →
  Handled m h ∈ dispatch_events (request_handlers (prepared w))
                  (notification_handlers (prepared w)) m.
Proof.
  destruct m as [id method params | id res | id code msg | method params];
    cbn [default_handler]; try discriminate.
  - destruct (String.eqb method "client/registerCapability") eqn:E; [| discriminate].
    apply String.eqb_eq in E. subst method. intros [= <-].
    unfold dispatch_events, prepared. cbn [request_handlers].
    rewrite lookup_insert_eq. unfold handler_events. rewrite !elem_of_app, !elem_of_cons. intuition.
  - unfold dispatch_events, prepared. cbn [notification_handlers].
    destruct (String.eqb method "window/logMessage") eqn:E1.
    { apply String.eqb_eq in E1. subst method. intros [= <-].
      rewrite lookup_insert_ne by discriminate.
      rewrite lookup_insert_ne by discriminate.
      rewrite lookup_insert_eq. unfold handler_events. rewrite !elem_of_app, !elem_of_cons. intuition. }
    destruct (String.eqb method "$/progress") eqn:E2.
    { apply String.eqb_eq in E2. subst method. intros [= <-].
      rewrite lookup_insert_ne by discriminate.
      rewrite lookup_insert_eq. unfold handler_events. rewrite !elem_of_app, !elem_of_cons. intuition. }
    destruct (String.eqb method "textDocument/publishDiagnostics") eqn:E3; [| discriminate].
    apply String.eqb_eq in E3. subst method. intros [= <-].
    rewrite lookup_insert_eq. unfold handler_events. rewrite !elem_of_app, !elem_of_cons. intuition.
Qed.

Lemma prepared_logs_message (w : world) (params : pyval) :
  Logged "LSP: window/logMessage: " (Some params)
  ∈ dispatch_events (request_handlers (prepared w)) (notification_handlers (prepared w))
      (Notification "window/logMessage" params).
Proof.
  unfold dispatch_events, prepared. cbn [notification_handlers].
  rewrite lookup_insert_ne by discriminate.
  rewrite lookup_insert_ne by discriminate.
  rewrite lookup_insert_eq. unfold handler_events. rewrite !elem_of_app, !elem_of_cons. intuition.
Qed.

(** Whatever happens, the run adds events behind the four registrations. *)
Lemma _start_server_begins_with_registrations env pid self w :
  ∃ rest, history (snd (_start_server env pid self w)) = history w ++ registrations ++ rest.
Proof.
  destruct (spawn env) as [u | e] eqn:Hspawn.
  2: { rewrite (_start_server_spawn_fails _ _ _ _ _ Hspawn). eexists. reflexivity. }
  destruct (_get_initialize_params pid (repository_root_path self)) as [params | e] eqn:Hparams.
  2: { rewrite (_start_server_no_params _ _ _ _ _ _ Hspawn Hparams).
       eexists. cbn [snd started prepared history]. rewrite <- !app_assoc. reflexivity. }
  rewrite (_start_server_handshake _ _ _ _ _ _ Hspawn Hparams).
  destruct (reply env) as [resp | e].
  2: { rewrite validate_failed. eexists. cbn [snd awaiting prepared history].
       rewrite <- !app_assoc. reflexivity. }
  rewrite validate_response. destruct (capability_check resp).
  - eexists. cbn [snd extend awaiting prepared history]. rewrite <- !app_assoc. reflexivity.
  - eexists. cbn [snd awaiting prepared history]. rewrite <- !app_assoc. reflexivity.
Qed.

(** An event that is not in a prefix of known events lies behind it. *)
Lemma split_behind_prefix (pre rest before after : list event) (e : event) :
  pre ++ rest = before ++ e :: after →
  e ∉ pre →
  ∃ before', before = pre ++ before'.
Proof.
  revert before. induction pre as [| p pre IH]; intros before Heq Hnotin.
  - exists before. reflexivity.
  - apply not_elem_of_cons in Hnotin as [Hne Hnotin].
    destruct before as [| b before]; simpl in Heq.
    + inversion Heq; subst. contradiction.
    + inversion Heq; subst. destruct (IH before H1 Hnotin) as [before' ->].
      exists before'. reflexivity.
Qed.

Lemma registrations_not_initialize (r : event) :
  r ∈ registrations → is_initialize_request r = false.
Proof.
  unfold registrations. rewrite !elem_of_cons.
  intros [-> | [-> | [-> | [-> | Hr]]]]; try reflexivity.
  inversion Hr.
Qed.

(** C1: the four default handlers are registered before the initialize
    request is sent; so, when the child is spawned, the repository path is
    absolute and the initialize response passes the capability test, every
    message the server pushes before that response finds its default
    handler (a window/logMessage is logged), and startup reaches Ready. *)
Theorem handlers_registered_before_initialize
    (env : server_behaviour) (pid : Z) (self : QmlLanguageServer) (w : world) :
  (∀ before e after,
     history (snd (_start_server env pid self w)) = history w ++ before ++ e :: after →
     is_initialize_request e = true →
     ∀ r, r ∈ registrations → r ∈ before)
  ∧ (∀ u resp,
       spawn env = Ok u →
       posixpath.isabs (repository_root_path self) = true →
       reply env = Ok resp →
       capability_check resp = Ok () →
       Ready (_start_server env pid self w)
       ∧ (∃ e, e ∈ history (snd (_start_server env pid self w))
               ∧ is_initialize_request e = true)
       ∧ (∀ m h, m ∈ early env → default_handler m = Some h →
            Handled m h ∈ history (snd (_start_server env pid self w)))
       ∧ (∀ params, Notification "window/logMessage" params ∈ early env →
            Logged "LSP: window/logMessage: " (Some params)
            ∈ history (snd (_start_server env pid self w)))).
Proof.
  split.
  - intros before e after Hhist Hinit r Hr.
    destruct (_start_server_begins_with_registrations env pid self w) as [rest Hrest].
    rewrite Hrest in Hhist. apply app_inv_head in Hhist.
    destruct (split_behind_prefix registrations rest before after e Hhist) as [before' ->].
    + intros Hin. apply registrations_not_initialize in Hin. congruence.
    + apply elem_of_app. left. exact Hr.
  - intros u resp Hspawn Habs Hreply Hcheck.
    destruct (_get_initialize_params_absolute pid _ Habs) as [params Hparams].
    rewrite (_start_server_handshake _ _ _ _ _ _ Hspawn Hparams), Hreply,
      validate_response, Hcheck.
    cbn [fst snd extend awaiting history handshake_events].
    split; [reflexivity |]. split; [| split].
    + exists (Sent (Request (next_id w) "initialize" params)).
      split; [| reflexivity]. unfold handshake_events.
      rewrite !elem_of_app, !elem_of_cons. left. right. left. right. right. left.
      reflexivity.
    + intros m h Hm Hh.
      assert (Handled m h ∈ flat_map
                (dispatch_events (request_handlers (prepared w))
                   (notification_handlers (prepared w))) (early env)) as Hin.
      { apply list_elem_of_In, in_flat_map. exists m. split.
        - apply list_elem_of_In, Hm.
        - apply list_elem_of_In, prepared_dispatches, Hh. }
      unfold handshake_events. rewrite !elem_of_app. tauto.
    + intros p Hm.
      assert (Logged "LSP: window/logMessage: " (Some p) ∈ flat_map
                (dispatch_events (request_handlers (prepared w))
                   (notification_handlers (prepared w))) (early env)) as Hin.
      { apply list_elem_of_In, in_flat_map. eexists. split.
        - apply list_elem_of_In, Hm.
        - apply list_elem_of_In, prepared_logs_message. }
      unfold handshake_events. rewrite !elem_of_app. tauto.
Qed.

Lemma handlers_registered_before_initialize_witness :
  spawn chatty_server = Ok ()
  ∧ posixpath.isabs (repository_root_path sample_self) = true
  ∧ Ready (_start_server chatty_server 4242 sample_self fresh)
  ∧ Logged "LSP: window/logMessage: "
      (Some (PDict [("type", PInt 3); ("message", PStr "hello")]))
    ∈ history (snd (_start_server chatty_server 4242 sample_self fresh)).
Proof.
  split; [reflexivity |]. split; [reflexivity |].
  destruct (handlers_registered_before_initialize chatty_server 4242 sample_self fresh)
    as [_ Hready].
  destruct (Hready () (PDict [("capabilities", PDict [("textDocumentSync", PInt 2)])]))
    as (Hr & _ & _ & Hlog); try reflexivity.
  split; [exact Hr |].
  apply Hlog. unfold chatty_server. cbn [early]. apply list_elem_of_here.
Defined.

Lemma sent_messages_registrations : sent_messages registrations = [].
Proof. reflexivity. Qed.

(** The events of a startup that reaches Ready. *)
Lemma _start_server_ready env pid self w :
  Ready (_start_server env pid self w) →
  ∃ params,
    _get_initialize_params pid (repository_root_path self) = Ok params
    ∧ _start_server env pid self w
      = (Ok (), extend (awaiting env params w)
                  [Sent (Notification "initialized" (PDict []))]).
Proof.
  unfold Ready. intros Hready.
  destruct (spawn env) as [u | e] eqn:Hspawn.
  2: { rewrite (_start_server_spawn_fails _ _ _ _ _ Hspawn) in Hready. discriminate. }
  destruct (_get_initialize_params pid (repository_root_path self)) as [params | e] eqn:Hparams.
  2: { rewrite (_start_server_no_params _ _ _ _ _ _ Hspawn Hparams) in Hready. discriminate. }
  exists params. split; [reflexivity |].
  rewrite (_start_server_handshake _ _ _ _ _ _ Hspawn Hparams) in Hready |- *.
  destruct (reply env) as [resp | e]; [| discriminate].
  rewrite validate_response in Hready |- *.
  destruct (capability_check resp) as [[] | e]; [reflexivity | discriminate].
Qed.

Lemma responses_filtered_out (P : message → Prop) `{∀ m, Decision (P m)}
    (ms : list message) :
  forallb is_response ms = true →
  (∀ m, is_response m = true → ¬ P m) →
  filter P ms = [].
Proof.
  intros Hresp HP. induction ms as [| m ms IH]; [reflexivity |].
  cbn [forallb] in Hresp. apply andb_prop in Hresp as [Hm Hms].
  rewrite filter_cons_False by exact (HP m Hm). exact (IH Hms).
Qed.

(** C2: a startup that reaches Ready has written, in this order, one
    initialize request, then nothing but responses to the server's own
    requests, then one initialized notification, which is the last thing
    it did before returning. *)
Theorem ready_after_initialize_then_initialized
    (env : server_behaviour) (pid : Z) (self : QmlLanguageServer) (w : world) :
  Ready (_start_server env pid self w) →
  ∃ events params responses,
    history (snd (_start_server env pid self w)) = history w ++ events
    ∧ sent_messages events
      = Request (next_id w) "initialize" params
        :: responses ++ [Notification "initialized" (PDict [])]
    ∧ forallb is_response responses = true
    ∧ length (filter (fun m => is_initialize m = true) (sent_messages events)) = 1%nat
    ∧ length (filter (fun m => is_initialized m = true) (sent_messages events)) = 1%nat
    ∧ last events = Some (Sent (Notification "initialized" (PDict []))).
Proof.
  intros Hready. destruct (_start_server_ready _ _ _ _ Hready) as (params & _ & ->).
  set (pushed := flat_map (dispatch_events (request_handlers (prepared w))
                             (notification_handlers (prepared w))) (early env)).
  pose proof (dispatch_sends_responses (request_handlers (prepared w))
                (notification_handlers (prepared w)) (early env)) as Hresp.
  fold pushed in Hresp.
  exists (registrations ++ [Logged "Starting qmlls server process" None]
          ++ handshake_events env params w
          ++ [Sent (Notification "initialized" (PDict []))]),
    params, (sent_messages pushed).
  assert (Hsent : sent_messages
            (registrations ++ [Logged "Starting qmlls server process" None]
             ++ handshake_events env params w
             ++ [Sent (Notification "initialized" (PDict []))])
          = Request (next_id w) "initialize" params
            :: sent_messages pushed ++ [Notification "initialized" (PDict [])]).
  { unfold handshake_events. fold pushed.
    rewrite !sent_messages_app, sent_messages_registrations. reflexivity. }
  split.
  { cbn [snd extend awaiting prepared history]. rewrite <- !app_assoc. reflexivity. }
  split; [exact Hsent |]. split; [exact Hresp |].
  rewrite Hsent. split; [| split].
  - rewrite filter_cons_True by reflexivity.
    rewrite filter_app, (responses_filtered_out _ _ Hresp).
    + reflexivity.
    + intros m Hm. destruct m; simpl in *; congruence.
  - rewrite filter_cons_False by (simpl; congruence).
    rewrite filter_app, (responses_filtered_out _ _ Hresp).
    + reflexivity.
    + intros m Hm. destruct m; simpl in *; congruence.
  - rewrite !app_assoc. apply last_snoc.
Qed.

Lemma ready_after_initialize_then_initialized_witness :
  Ready (_start_server chatty_server 4242 sample_self fresh)
  ∧ ∃ events params,
      history (snd (_start_server chatty_server 4242 sample_self fresh)) = events
      ∧ sent_messages events
        = [Request 0 "initialize" params;
           ResultResponse 1 PNone;
           Notification "initialized" (PDict [])].
Proof.
  assert (Hready : Ready (_start_server chatty_server 4242 sample_self fresh))
    by reflexivity.
  split; [exact Hready |].
  destruct (ready_after_initialize_then_initialized chatty_server 4242 sample_self fresh Hready)
    as (events & params & responses & Hhist & Hsent & _).
  exists events, params. split; [exact Hhist |].
  rewrite Hsent. 
  assert (Hev : sent_messages events = sent_messages (history (snd (_start_server chatty_server 4242 sample_self fresh))))
    by (rewrite Hhist; reflexivity).
  rewrite Hsent in Hev. vm_compute in Hev.
  inversion Hev; subst. reflexivity.
Defined.

(** C3, as stated, fails: with a response that lacks textDocumentSync the
    assertion of line 160 fails and [_start_server] is left at once; the
    child it spawned still runs. *)
Lemma missing_sync_leaves_child_running :
  getitem (PDict [("capabilities", PDict [("definitionProvider", PBool true)])]) "capabilities"
  = Ok (PDict [("definitionProvider", PBool true)])
  ∧ ("textDocumentSync" ∉ fst <$> [("definitionProvider", PBool true)])
  ∧ fst (_start_server server_without_sync 4242 sample_self fresh) = Raise AssertionError
  ∧ ¬ torn_down (snd (_start_server server_without_sync 4242 sample_self fresh)).
Proof.
  split; [reflexivity |]. split.
  - cbn. rewrite elem_of_cons. intros [H | H]; [discriminate | inversion H].
  - split; [reflexivity |]. unfold torn_down.
    change (running (snd (_start_server server_without_sync 4242 sample_self fresh))) with true.
    discriminate.
Qed.

(** C3, amended: when the capabilities of the initialize response have no
    textDocumentSync key, [_start_server] raises AssertionError after its
    one initialize request, never sends the initialized notification and
    does not reach Ready; it tears nothing down, the spawned child is left
    running. *)
Theorem missing_sync_fails_assertion
    (env : server_behaviour) (pid : Z) (self : QmlLanguageServer) (w : world)
    (u : unit) (resp : pyval) (caps : list (string * pyval)) :
  spawn env = Ok u →
  posixpath.isabs (repository_root_path self) = true →
  reply env = Ok resp →
  getitem resp "capabilities" = Ok (PDict caps) →
  "textDocumentSync" ∉ caps.*1 →
  fst (_start_server env pid self w) = Raise AssertionError
  ∧ ¬ Ready (_start_server env pid self w)
  ∧ running (snd (_start_server env pid self w)) = true
  ∧ ∃ events,
      history (snd (_start_server env pid self w)) = history w ++ events
      ∧ (∀ e, e ∈ events → is_initialized_notification e = false)
      ∧ length (filter (fun m => is_initialize m = true) (sent_messages events)) = 1%nat.
Proof.
  intros Hspawn Habs Hreply Hcaps Hkey.
  destruct (_get_initialize_params_absolute pid _ Habs) as [params Hparams].
  assert (Hcheck : capability_check resp = Raise AssertionError).
  { rewrite (capability_check_dict _ _ Hcaps), (existsb_key_false _ _ Hkey). reflexivity. }
  assert (Hrun : _start_server env pid self w = (Raise AssertionError, awaiting env params w)).
  { rewrite (_start_server_handshake _ _ _ _ _ _ Hspawn Hparams), Hreply,
      validate_response, Hcheck. reflexivity. }
  rewrite Hrun. unfold Ready. cbn [fst snd awaiting running].
  rewrite Hreply. cbn [survives].
  split; [reflexivity |]. split; [discriminate |]. split; [reflexivity |].
  set (pushed := flat_map (dispatch_events (request_handlers (prepared w))
                             (notification_handlers (prepared w))) (early env)).
  pose proof (dispatch_sends_responses (request_handlers (prepared w))
                (notification_handlers (prepared w)) (early env)) as Hresp.
  fold pushed in Hresp.
  exists (registrations ++ [Logged "Starting qmlls server process" None]
          ++ handshake_events env params w).
  split; [| split].
  - unfold awaiting, prepared. cbn [history]. rewrite <- !app_assoc. reflexivity.
  - intros e. unfold handshake_events. fold pushed.
    rewrite !elem_of_app, !elem_of_cons.
    intros [Hreg | [[-> | Hnil] | [[-> | [-> | [-> | Hnil]]] | Hpushed]]];
      try reflexivity; try (inversion Hnil; fail).
    + unfold registrations in Hreg. rewrite !elem_of_cons in Hreg.
      destruct Hreg as [-> | [-> | [-> | [-> | Hnil]]]]; try reflexivity. inversion Hnil.
    + destruct e as [| | | m | | |]; try reflexivity.
      assert (Hm : m ∈ sent_messages pushed).
      { apply list_elem_of_omap. exists (Sent m). split; [exact Hpushed | reflexivity]. }
      rewrite forallb_forall in Hresp. apply list_elem_of_In, Hresp in Hm.
      destruct m; simpl in *; congruence.
  - unfold handshake_events. fold pushed.
    rewrite !sent_messages_app, sent_messages_registrations.
    cbn [sent_messages omap app fmap].
    change (sent_messages [Logged "Starting qmlls server process" None]) with (@nil message).
    cbn [app].
    change (sent_messages
              [Started;
               Logged "Sending initialize request from LSP client to LSP server and awaiting response" None;
               Sent (Request (next_id w) "initialize" params)])
      with [Request (next_id w) "initialize" params].
    cbn [app]. rewrite filter_cons_True by reflexivity.
    rewrite (responses_filtered_out _ _ Hresp).
    + reflexivity.
    + intros m Hm. destruct m; simpl in *; congruence.
Qed.

Lemma missing_sync_fails_assertion_witness :
  spawn server_without_sync = Ok ()
  ∧ posixpath.isabs (repository_root_path sample_self) = true
  ∧ fst (_start_server server_without_sync 4242 sample_self fresh) = Raise AssertionError
  ∧ running (snd (_start_server server_without_sync 4242 sample_self fresh)) = true.
Proof.
  split; [reflexivity |]. split; [reflexivity |].
  destruct (missing_sync_fails_assertion server_without_sync 4242 sample_self fresh ()
              (PDict [("capabilities", PDict [("definitionProvider", PBool true)])])
              [("definitionProvider", PBool true)])
    as (Hraise & _ & Hrunning & _); try reflexivity.
  - cbn. rewrite elem_of_cons. intros [H | H]; [discriminate | inversion H].
  - split; [exact Hraise | exact Hrunning].
Defined.

(** Without a capabilities entry at all the failure is the [KeyError] of
    the subscript, raised at the same place. *)
Example _start_server_no_capabilities :
  fst (_start_server {| spawn := Ok (); early := []; reply := Ok (PDict []) |}
         4242 sample_self fresh)
  = Raise (KeyError "capabilities").
Proof. reflexivity. Qed.

(** * Further properties *)

(** ** Directory filter and probe *)

Lemma _setup_runtime_dependency_raises (e : exn) :
  e ≠ FileNotFoundError → _setup_runtime_dependency (Raise e) = Raise e.
Proof.
  intros He. unfold _setup_runtime_dependency.
  rewrite (_get_qmlls_version_other_exception e He). reflexivity.
Qed.

(** X1: an exception of the probe's [subprocess.run] other than
    [FileNotFoundError] is caught nowhere: the probe, the dependency check
    and the constructor all end with that same exception. *)
Theorem probe_exception_passes_through (e : exn) (root : string)
    (qml_settings : gmap string pyval) :
  e ≠ FileNotFoundError →
  _get_qmlls_version (Raise e) = Raise e
  ∧ _setup_runtime_dependency (Raise e) = Raise e
  ∧ __init__ (Raise e) root qml_settings = Raise e.
Proof.
  intros He. split; [exact (_get_qmlls_version_other_exception e He) |].
  split; [exact (_setup_runtime_dependency_raises e He) |].
  unfold __init__. rewrite (_setup_runtime_dependency_raises e He). reflexivity.
Qed.

Lemma probe_exception_passes_through_witness :
  PermissionError ≠ FileNotFoundError
  ∧ __init__ (Raise PermissionError) "/home/u/proj" sample_settings
    = Raise PermissionError.
Proof.
  split; [discriminate |].
  apply (probe_exception_passes_through PermissionError "/home/u/proj" sample_settings).
  discriminate.
Defined.

Lemma lstrip_shape (points : list string) :
  lstrip points = [] ∨ ∃ p r, lstrip points = p :: r ∧ isspace p = false.
Proof.
  induction points as [| p points IH]; [left; reflexivity |]. simpl.
  destruct (isspace p) eqn:E; [exact IH |]. right. eauto.
Qed.

Lemma lstrip_nil (points : list string) :
  lstrip points = [] ↔ forallb isspace points = true.
Proof.
  induction points as [| p points IH]; [split; reflexivity |]. simpl.
  destruct (isspace p); [exact IH | split; discriminate].
Qed.

Lemma rstrip_head (p : string) (r : list string) :
  isspace p = false → ∃ r', rstrip (p :: r) = p :: r'.
Proof.
  intros Hp. simpl. destruct (rstrip r); rewrite ?Hp; eauto.
Qed.

Lemma rstrip_idempotent (points : list string) : rstrip (rstrip points) = rstrip points.
Proof.
  induction points as [| p points IH]; [reflexivity |]. simpl.
  destruct (rstrip points) as [| p' r'] eqn:E.
  - destruct (isspace p) eqn:Ep; [reflexivity |]. simpl. rewrite Ep. reflexivity.
  - change (rstrip (p :: p' :: r')) with
      (match rstrip (p' :: r') with
       | [] => if isspace p then [] else [p]
       | rest' => p :: rest'
       end).
    rewrite IH. reflexivity.
Qed.

Lemma trim_idempotent (points : list string) :
  rstrip (lstrip (rstrip (lstrip points))) = rstrip (lstrip points).
Proof.
  destruct (lstrip_shape points) as [-> | (p & r & -> & Hp)]; [reflexivity |].
  destruct (rstrip_head p r Hp) as [r' Hr]. rewrite Hr.
  cbn [lstrip]. rewrite Hp, <- Hr. apply rstrip_idempotent.
Qed.

Lemma trim_nil (points : list string) :
  rstrip (lstrip points) = [] ↔ forallb isspace points = true.
Proof.
  rewrite <- lstrip_nil. split.
  - intros H. destruct (lstrip_shape points) as [E | (p & r & E & Hp)]; [exact E |].
    rewrite E in H. destruct (rstrip_head p r Hp) as [r' Hr]. congruence.
  - intros ->. reflexivity.
Qed.

Lemma code_points_cons (c c' : ascii) (r : string) :
  code_points (String c (String c' r))
  = if is_continuation c'
    then match code_points (String c' r) with
         | point :: points => String c point :: points
         | [] => [String c EmptyString]
         end
    else String c EmptyString :: code_points (String c' r).
Proof. reflexivity. Qed.

Lemma code_points_head (c : ascii) (r : string) :
  ∃ t points, code_points (String c r) = String c t :: points.
Proof.
  destruct r as [| c' r']; [simpl; eauto |].
  rewrite code_points_cons. destruct (is_continuation c'); [| eauto].
  destruct (code_points (String c' r')); eauto.
Qed.

Lemma followers_whole (points : list string) :
  followers points = true → whole_characters points = true.
Proof.
  destruct points as [| p rest]; [reflexivity |]. cbn.
  intros H. apply andb_prop in H as [Hp Hrest].
  apply andb_prop in Hp as [Hp _]. rewrite Hp. exact Hrest.
Qed.

Lemma code_points_whole (s : string) : whole_characters (code_points s) = true.
Proof.
  induction s as [| c rest IH]; [reflexivity |].
  destruct rest as [| c' r]; [reflexivity |].
  destruct (code_points_head c' r) as (t & points & Hrest).
  rewrite code_points_cons. rewrite Hrest in IH |- *.
  unfold whole_characters, followers in IH |- *.
  cbn [continues] in IH. apply andb_prop in IH as [Ht Hpoints].
  destruct (is_continuation c') eqn:Hc'.
  - cbn [continues list_ascii_of_string forallb]. rewrite Hc', Ht, Hpoints. reflexivity.
  - cbn [continues list_ascii_of_string forallb fresh_start].
    rewrite Hc', Ht, Hpoints. reflexivity.
Qed.

Lemma code_points_regroup (t : string) :
  forallb is_continuation (list_ascii_of_string t) = true →
  ∀ c points,
    followers points = true →
    code_points (join_points points) = points →
    code_points (String c (t +:+ join_points points)) = String c t :: points.
Proof.
  induction t as [| c1 t1 IH]; intros Ht c points Hfollow Hpoints.
  - change (EmptyString +:+ join_points points) with (join_points points).
    destruct points as [| p ps]; [reflexivity |].
    cbn [followers forallb] in Hfollow. apply andb_prop in Hfollow as [Hp _].
    apply andb_prop in Hp as [_ Hfresh].
    destruct p as [| c' t']; [discriminate |]. cbn [fresh_start] in Hfresh.
    change (join_points (String c' t' :: ps))
      with (String c' (t' +:+ join_points ps)) in Hpoints |- *.
    rewrite code_points_cons.
    apply negb_true_iff in Hfresh. rewrite Hfresh, Hpoints. reflexivity.
  - cbn [list_ascii_of_string forallb] in Ht. apply andb_prop in Ht as [Hc1 Ht1].
    change (String c1 t1 +:+ join_points points)
      with (String c1 (t1 +:+ join_points points)).
    rewrite code_points_cons.
    rewrite Hc1, (IH Ht1 c1 points Hfollow Hpoints). reflexivity.
Qed.

Lemma code_points_join_followers (points : list string) :
  followers points = true → code_points (join_points points) = points.
Proof.
  induction points as [| p ps IH]; [reflexivity |].
  intros H. pose proof H as Hall. cbn [followers forallb] in H.
  apply andb_prop in H as [Hp Hps]. apply andb_prop in Hp as [Hcont _].
  destruct p as [| c t]; [discriminate |].
  change (join_points (String c t :: ps)) with (String c (t +:+ join_points ps)).
  apply code_points_regroup; [exact Hcont | exact Hps | exact (IH Hps)].
Qed.

(** Joining whole characters and splitting again gives them back. *)
Lemma code_points_join (points : list string) :
  whole_characters points = true → code_points (join_points points) = points.
Proof.
  destruct points as [| p ps]; [reflexivity |]. cbn [whole_characters].
  intros H. apply andb_prop in H as [Hcont Hps].
  destruct p as [| c t]; [discriminate |].
  change (join_points (String c t :: ps)) with (String c (t +:+ join_points ps)).
  apply code_points_regroup;
    [exact Hcont | exact Hps | exact (code_points_join_followers ps Hps)].
Qed.

Lemma lstrip_whole (points : list string) :
  whole_characters points = true → whole_characters (lstrip points) = true.
Proof.
  induction points as [| p ps IH]; [reflexivity |]. intros H. simpl.
  destruct (isspace p); [| exact H]. apply IH, followers_whole.
  cbn [whole_characters] in H. apply andb_prop in H as [_ H]. exact H.
Qed.

Lemma rstrip_followers (points : list string) :
  followers points = true → followers (rstrip points) = true.
Proof.
  induction points as [| p ps IH]; [reflexivity |]. intros H.
  cbn [followers forallb] in H. apply andb_prop in H as [Hp Hps].
  specialize (IH Hps). simpl. destruct (rstrip ps) as [| p' r'].
  - destruct (isspace p); [reflexivity |]. cbn. rewrite Hp. reflexivity.
  - cbn [followers forallb] in IH |- *. rewrite Hp. exact IH.
Qed.

Lemma rstrip_whole (points : list string) :
  whole_characters points = true → whole_characters (rstrip points) = true.
Proof.
  destruct points as [| p ps]; [reflexivity |]. cbn [whole_characters].
  intros H. apply andb_prop in H as [Hp Hps].
  pose proof (rstrip_followers ps Hps) as Hr. simpl.
  destruct (rstrip ps) as [| p' r'].
  - destruct (isspace p); [reflexivity |]. cbn. rewrite Hp. reflexivity.
  - cbn [whole_characters]. rewrite Hp. exact Hr.
Qed.

Lemma strip_idempotent (s : string) : strip (strip s) = strip s.
Proof.
  unfold strip. rewrite code_points_join.
  - rewrite trim_idempotent. reflexivity.
  - apply rstrip_whole, lstrip_whole, code_points_whole.
Qed.

Lemma strip_all_space (s : string) : strip s = "" ↔ all_space s = true.
Proof.
  unfold strip, all_space. rewrite <- trim_nil.
  pose proof (rstrip_whole _ (lstrip_whole _ (code_points_whole s))) as Hwhole.
  destruct (rstrip (lstrip (code_points s))) as [| p ps].
  - split; reflexivity.
  - cbn [whole_characters] in Hwhole. apply andb_prop in Hwhole as [Hp _].
    destruct p; [discriminate |]. split; discriminate.
Qed.

(** X2: when [--help] exits with zero and prints nothing but white space
    (or nothing), the probe answers "qmlls available"; and it answers that
    only then, or when the trimmed output is that very text. *)
Theorem _get_qmlls_version_blank_output (cp : CompletedProcess) :
  returncode cp = 0 →
  (all_space (stdout cp) = true →
   _get_qmlls_version (Ok cp) = Ok (Some "qmlls available"))
  ∧ (_get_qmlls_version (Ok cp) = Ok (Some "qmlls available")
     ↔ all_space (stdout cp) = true ∨ strip (stdout cp) = "qmlls available").
Proof.
  intros Hrc. rewrite _get_qmlls_version_completed, Hrc. cbn [Z.eqb].
  unfold str_or. cbn [truthy].
  destruct (String.eqb (strip (stdout cp)) "") eqn:E; cbn [negb].
  - apply String.eqb_eq in E. pose proof (proj1 (strip_all_space _) E) as Hsp.
    split; [reflexivity |]. split; [intros _; left; exact Hsp | reflexivity].
  - apply String.eqb_neq in E. split.
    + intros Hsp. apply strip_all_space in Hsp. contradiction.
    + split.
      * intros [= H]. right. exact H.
      * intros [Hsp | H]; [apply strip_all_space in Hsp; contradiction |].
        rewrite H. reflexivity.
Qed.

Lemma _get_qmlls_version_blank_output_witness :
  returncode {| returncode := 0; stdout := bytes [194; 160; 32; 10] |} = 0
  ∧ all_space (stdout {| returncode := 0; stdout := bytes [194; 160; 32; 10] |}) = true
  ∧ _get_qmlls_version (Ok {| returncode := 0; stdout := bytes [194; 160; 32; 10] |})
    = Ok (Some "qmlls available").
Proof.
  split; [reflexivity |]. split; [reflexivity |].
  destruct (_get_qmlls_version_blank_output
              {| returncode := 0; stdout := bytes [194; 160; 32; 10] |})
    as [Hblank _]; [reflexivity |].
  apply Hblank. reflexivity.
Defined.

(** X3: a version the probe returns carries no leading or trailing white
    space: trimming it again changes nothing. *)
Theorem _get_qmlls_version_trimmed (run : result CompletedProcess) (version : string) :
  _get_qmlls_version run = Ok (Some version) → strip version = version.
Proof.
  destruct run as [cp | e].
  - rewrite _get_qmlls_version_completed.
    destruct (returncode cp =? 0)%Z; [| discriminate].
    intros [= <-]. unfold str_or. cbn [truthy].
    destruct (String.eqb (strip (stdout cp)) ""); cbn [negb].
    + reflexivity.
    + apply strip_idempotent.
  - destruct e; discriminate.
Qed.

Lemma _get_qmlls_version_trimmed_witness :
  _get_qmlls_version (Ok {| returncode := 0; stdout := "  qmlls 6.7 " +:+ nl |})
  = Ok (Some "qmlls 6.7")
  ∧ strip "qmlls 6.7" = "qmlls 6.7".
Proof.
  split; [reflexivity |].
  apply (_get_qmlls_version_trimmed
           (Ok {| returncode := 0; stdout := "  qmlls 6.7 " +:+ nl |})).
  reflexivity.
Defined.

(** X4: the dependency check never returns [False]: it returns [True]
    exactly when [--help] ran and exited with zero, whatever it printed,
    and otherwise raises; the text of the version plays no part in what the
    constructor builds. *)
Theorem _setup_runtime_dependency_true_or_raises (run : result CompletedProcess) :
  _setup_runtime_dependency run ≠ Ok false
  ∧ (_setup_runtime_dependency run = Ok true
     ↔ ∃ cp, run = Ok cp ∧ returncode cp = 0)
  ∧ (∀ run' root qml_settings,
       _setup_runtime_dependency run = Ok true →
       _setup_runtime_dependency run' = Ok true →
       __init__ run root qml_settings = __init__ run' root qml_settings).
Proof.
  split; [| split].
  - destruct run as [cp | e].
    + rewrite _setup_runtime_dependency_completed.
      destruct (returncode cp =? 0)%Z; discriminate.
    + destruct e; discriminate.
  - split.
    + destruct run as [cp | e].
      * rewrite _setup_runtime_dependency_completed.
        destruct (returncode cp =? 0)%Z eqn:E; [| discriminate].
        intros _. exists cp. split; [reflexivity |]. apply Z.eqb_eq. exact E.
      * destruct e; discriminate.
    + intros (cp & -> & Hrc).
      rewrite _setup_runtime_dependency_completed, Hrc. reflexivity.
  - intros run' root qml_settings H H'. unfold __init__. rewrite H, H'. reflexivity.
Qed.

Lemma _setup_runtime_dependency_true_or_raises_witness :
  _setup_runtime_dependency help_ok = Ok true
  ∧ _setup_runtime_dependency (Ok {| returncode := 0; stdout := "" |}) = Ok true
  ∧ __init__ help_ok "/home/u/proj" sample_settings
    = __init__ (Ok {| returncode := 0; stdout := "" |}) "/home/u/proj" sample_settings.
Proof.
  split; [reflexivity |]. split; [reflexivity |].
  destruct (_setup_runtime_dependency_true_or_raises help_ok) as (_ & _ & Hsame).
  apply Hsame; reflexivity.
Defined.

(** ** The constructor *)

(** X5: once the dependency check has passed, settings the constructor
    cannot use make it end with [TypeError]: a [build_dir] or [doc_dir]
    that is truthy and no string (a non-zero integer, [True], a non-empty
    list or dictionary), and an [import_paths] that is a non-zero integer
    or [True], or one of whose items is no string. *)
Theorem __init___type_errors (run : result CompletedProcess) (root : string)
    (qml_settings : gmap string pyval) :
  _setup_runtime_dependency run = Ok true →
  path_accepted (dict_get qml_settings "build_dir") = false
  ∨ paths_accepted (dict_get qml_settings "import_paths") = false
  ∨ path_accepted (dict_get qml_settings "doc_dir") = false →
  __init__ run root qml_settings = Raise TypeError.
Proof.
  intros Hdep Hbad. apply (__init___rejected run root qml_settings Hdep).
  unfold accepted. destruct Hbad as [-> | [-> | ->]];
    rewrite ?andb_false_r; reflexivity.
Qed.

Lemma __init___type_errors_witness :
  _setup_runtime_dependency help_ok = Ok true
  ∧ paths_accepted
      (dict_get (<["import_paths" := PList [PStr "imports"; PInt 7]]> sample_settings)
         "import_paths") = false
  ∧ __init__ help_ok "/home/u/proj"
      (<["import_paths" := PList [PStr "imports"; PInt 7]]> sample_settings)
    = Raise TypeError.
Proof.
  split; [reflexivity |]. split; [reflexivity |].
  apply __init___type_errors; [reflexivity |]. right. left. reflexivity.
Defined.

Lemma for_import_paths_extends (root : string) (items : list pyval) :
  ∀ cmd cmd', for_import_paths root items cmd = Ok cmd' →
              ∃ extra, cmd' = cmd ++ extra.
Proof.
  induction items as [| v items IH]; intros cmd0 cmd' H; simpl in H.
  - inversion H. exists []. rewrite app_nil_r. reflexivity.
  - destruct (absolute_under root v) as [p | e]; [| discriminate].
    cbn [mbind result_bind] in H. destruct (IH _ _ H) as [extra ->].
    eexists. rewrite <- app_assoc. reflexivity.
Qed.

(** X6: whatever the settings, a constructed server has a command that
    begins with "qmlls", the repository root as working directory and as
    [repository_root_path], the language id "qml" and request id 0. *)
Theorem __init___invariants (run : result CompletedProcess) (root : string)
    (qml_settings : gmap string pyval) (self : QmlLanguageServer) :
  __init__ run root qml_settings = Ok self →
  hd_error (cmd (process_launch_info self)) = Some "qmlls"
  ∧ cwd (process_launch_info self) = root
  ∧ repository_root_path self = root
  ∧ language_id self = "qml"
  ∧ request_id self = 0.
Proof.
  unfold __init__.
  destruct (_setup_runtime_dependency run) as [b | e]; [| discriminate].
  cbn [mbind result_bind].
  assert (Hstep1 : ∃ c1, (if truthy (dict_get qml_settings "build_dir")
            then build_dir ← absolute_under root (dict_get qml_settings "build_dir");
                 Ok (["qmlls"] ++ ["--build-dir"; build_dir])
            else Ok ["qmlls"]) = c1) by eauto.
  destruct Hstep1 as [c1 Hc1]. rewrite Hc1.
  destruct c1 as [cmd1 | e]; [| discriminate]. cbn [mbind result_bind].
  assert (H1 : ∃ x, cmd1 = "qmlls" :: x).
  { destruct (truthy (dict_get qml_settings "build_dir")).
    - destruct (absolute_under root _); [| discriminate].
      cbn [mbind result_bind] in Hc1. inversion Hc1. eauto.
    - inversion Hc1. eauto. }
  destruct H1 as [x1 ->].
  destruct (truthy (dict_get qml_settings "import_paths")).
  - destruct (py_iter _) as [items | e]; [| discriminate]. cbn [mbind result_bind].
    destruct (for_import_paths root items ("qmlls" :: x1)) as [cmd2 | e] eqn:E2;
      [| discriminate].
    destruct (for_import_paths_extends _ _ _ _ E2) as [extra ->].
    cbn [mbind result_bind].
    destruct (truthy (dict_get qml_settings "use_environment_import_paths"));
      destruct (truthy (dict_get qml_settings "no_cmake_calls"));
      destruct (truthy (dict_get qml_settings "doc_dir"));
      try (destruct (absolute_under root (dict_get qml_settings "doc_dir"));
           [| discriminate]);
      cbn [mbind result_bind]; intros [= <-]; repeat split; reflexivity.
  - cbn [mbind result_bind].
    destruct (truthy (dict_get qml_settings "use_environment_import_paths"));
      destruct (truthy (dict_get qml_settings "no_cmake_calls"));
      destruct (truthy (dict_get qml_settings "doc_dir"));
      try (destruct (absolute_under root (dict_get qml_settings "doc_dir"));
           [| discriminate]);
      cbn [mbind result_bind]; intros [= <-]; repeat split; reflexivity.
Qed.

Lemma __init___invariants_witness :
  (∃ self, __init__ help_ok "/home/u/proj" (<["import_paths" := PStr "ab"]> ∅) = Ok self
           ∧ hd_error (cmd (process_launch_info self)) = Some "qmlls"
           ∧ cwd (process_launch_info self) = "/home/u/proj").
Proof.
  destruct (__init__ help_ok "/home/u/proj" (<["import_paths" := PStr "ab"]> ∅))
    as [self | e] eqn:E; [| vm_compute in E; discriminate].
  exists self. split; [reflexivity |].
  destruct (__init___invariants _ _ _ _ E) as (Hhd & Hcwd & _).
  split; [exact Hhd | exact Hcwd].
Defined.

Lemma made_absolute_isabs (root p : string) :
  posixpath.isabs root = true → posixpath.isabs (made_absolute root p) = true.
Proof.
  intros Hroot. unfold made_absolute. destruct (posixpath.isabs p) eqn:Hp; [exact Hp |].
  unfold posixpath.join. unfold posixpath.isabs in Hp. rewrite Hp.
  destruct root as [| c r]; [discriminate |].
  destruct (String.eqb (String c r) "" || endswith_sep (String c r)); exact Hroot.
Qed.

Lemma path_arguments_absolute (flag root : string) (v : pyval) :
  posixpath.isabs root = true → flag ∈ qmlls_flags →
  Forall (fun a => a ∈ qmlls_flags ∨ posixpath.isabs a = true) (path_arguments flag root v).
Proof.
  intros Hroot Hflag. destruct v; simpl; try constructor.
  destruct (String.eqb s ""); [constructor |].
  apply Forall_cons. split; [left; exact Hflag |].
  apply Forall_cons. split; [| constructor].
  right. exact (made_absolute_isabs root s Hroot).
Qed.

Lemma import_arguments_absolute (root : string) (v : pyval) :
  posixpath.isabs root = true →
  Forall (fun a => a ∈ qmlls_flags ∨ posixpath.isabs a = true) (import_arguments root v).
Proof.
  intros Hroot. destruct v; simpl; try constructor.
  induction l as [| e l IH]; simpl; [constructor |].
  apply Forall_app. split; [| exact IH].
  destruct e; try constructor.
  - left. unfold qmlls_flags. rewrite !elem_of_cons. tauto.
  - constructor; [| constructor]. right. exact (made_absolute_isabs root s Hroot).
Qed.

Lemma flag_argument_flag (flag : string) (v : pyval) :
  flag ∈ qmlls_flags →
  Forall (fun a => a ∈ qmlls_flags ∨ posixpath.isabs a = true) (flag_argument flag v).
Proof.
  intros Hflag. unfold flag_argument. destruct (truthy v); [| constructor].
  constructor; [left; exact Hflag | constructor].
Qed.

(** X7: with an absolute repository root and settings of the documented
    types, qmlls is never handed a relative path: every argument after
    "qmlls" is one of the five options or an absolute path. *)
Theorem __init___arguments_absolute (run : result CompletedProcess) (root : string)
    (qml_settings : gmap string pyval) :
  _setup_runtime_dependency run = Ok true →
  documented_types qml_settings = true →
  posixpath.isabs root = true →
  ∃ self args,
    __init__ run root qml_settings = Ok self
    ∧ cmd (process_launch_info self) = "qmlls" :: args
    ∧ Forall (fun a => a ∈ qmlls_flags ∨ posixpath.isabs a = true) args.
Proof.
  intros Hdep Htypes Hroot. eexists. eexists.
  split; [exact (__init___documented_cmd run root qml_settings Hdep Htypes) |].
  split; [reflexivity |].
  assert (Hin : ∀ f, In f qmlls_flags → f ∈ qmlls_flags)
    by (intros f Hf; apply list_elem_of_In; exact Hf).
  repeat (apply Forall_app; split).
  - apply path_arguments_absolute; [exact Hroot |]. apply Hin. simpl. tauto.
  - apply import_arguments_absolute. exact Hroot.
  - apply flag_argument_flag. apply Hin. simpl. tauto.
  - apply flag_argument_flag. apply Hin. simpl. tauto.
  - apply path_arguments_absolute; [exact Hroot |]. apply Hin. simpl. tauto.
Qed.

Lemma __init___arguments_absolute_witness :
  _setup_runtime_dependency help_ok = Ok true
  ∧ documented_types sample_settings = true
  ∧ posixpath.isabs "/home/u/proj" = true
  ∧ ∃ self args,
      __init__ help_ok "/home/u/proj" sample_settings = Ok self
      ∧ cmd (process_launch_info self) = "qmlls" :: args
      ∧ Forall (fun a => a ∈ qmlls_flags ∨ posixpath.isabs a = true) args.
Proof.
  split; [reflexivity |]. split; [reflexivity |]. split; [reflexivity |].
  apply __init___arguments_absolute; reflexivity.
Defined.

Lemma effective_eq (v1 v2 : pyval) :
  effective v1 = effective v2 →
  truthy v1 = truthy v2 ∧ (truthy v1 = true → v1 = v2).
Proof.
  unfold effective. destruct (truthy v1) eqn:E1, (truthy v2) eqn:E2; intros H.
  - split; [reflexivity | intros _; exact H].
  - subst v1. discriminate.
  - subst v2. discriminate.
  - split; [reflexivity | discriminate].
Qed.

(** X8: the constructor reads five keys and of each only its truthy
    value: two settings dictionaries that agree on the five keys, a falsy
    value counting as a missing one, give the same result, whatever else
    they hold. *)
Theorem __init___reads_five_keys (run : result CompletedProcess) (root : string)
    (settings1 settings2 : gmap string pyval) :
  (∀ k, k ∈ qml_setting_keys →
        effective (dict_get settings1 k) = effective (dict_get settings2 k)) →
  __init__ run root settings1 = __init__ run root settings2.
Proof.
  intros Hagree.
  assert (Hk : ∀ k, In k qml_setting_keys →
                    truthy (dict_get settings1 k) = truthy (dict_get settings2 k)
                    ∧ (truthy (dict_get settings1 k) = true →
                       dict_get settings1 k = dict_get settings2 k)).
  { intros k Hin. apply effective_eq, Hagree, list_elem_of_In, Hin. }
  destruct (Hk "build_dir") as [Tb Vb]; [simpl; tauto |].
  destruct (Hk "import_paths") as [Ti Vi]; [simpl; tauto |].
  destruct (Hk "use_environment_import_paths") as [Te _]; [simpl; tauto |].
  destruct (Hk "no_cmake_calls") as [Tc _]; [simpl; tauto |].
  destruct (Hk "doc_dir") as [Td Vd]; [simpl; tauto |].
  clear Hk Hagree. unfold __init__.
  rewrite <- Te, <- Tc. clear Te Tc.
  revert Tb Vb Ti Vi Td Vd.
  generalize (dict_get settings2 "build_dir") (dict_get settings2 "import_paths")
    (dict_get settings2 "doc_dir").
  generalize (dict_get settings1 "build_dir") (dict_get settings1 "import_paths")
    (dict_get settings1 "doc_dir").
  intros b1 i1 d1 b2 i2 d2 Tb Vb Ti Vi Td Vd.
  rewrite <- Tb, <- Ti, <- Td.
  destruct (truthy b1); [rewrite <- (Vb eq_refl) |];
    destruct (truthy i1); try rewrite <- (Vi eq_refl);
    destruct (truthy d1); try rewrite <- (Vd eq_refl); reflexivity.
Qed.

Lemma __init___reads_five_keys_witness :
  __init__ help_ok "/home/u/proj"
    (<["build_dir" := PStr ""]> (<["log_level" := PInt 3]> sample_settings))
  = __init__ help_ok "/home/u/proj" (delete "build_dir" sample_settings).
Proof.
  apply __init___reads_five_keys. intros k Hk.
  unfold qml_setting_keys in Hk. rewrite !elem_of_cons in Hk.
  destruct Hk as [-> | [-> | [-> | [-> | [-> | Hk]]]]];
    [reflexivity .. | inversion Hk].
Defined.

Lemma for_import_paths_characters (root : string) (points : list string) :
  ∀ cmd, for_import_paths root (map PStr points) cmd
         = Ok (cmd ++ flat_map (fun point => ["-I"; made_absolute root point]) points).
Proof.
  induction points as [| point points IH]; intros cmd0; simpl.
  - rewrite app_nil_r. reflexivity.
  - rewrite absolute_under_str. cbn [mbind result_bind].
    rewrite IH, <- app_assoc. reflexivity.
Qed.

(** X9: an [import_paths] given as one string instead of a list is not
    refused: the loop visits its characters, and each character becomes an
    import path of its own. *)
Theorem __init___import_paths_as_string (run : result CompletedProcess) (root : string)
    (qml_settings : gmap string pyval) (paths : string) :
  _setup_runtime_dependency run = Ok true →
  dict_get qml_settings "import_paths" = PStr paths →
  is_path_setting (dict_get qml_settings "build_dir") = true →
  is_path_setting (dict_get qml_settings "doc_dir") = true →
  ∃ self,
    __init__ run root qml_settings = Ok self
    ∧ cmd (process_launch_info self) =
        ["qmlls"]
        ++ path_arguments "--build-dir" root (dict_get qml_settings "build_dir")
        ++ character_import_arguments root paths
        ++ flag_argument "-E" (dict_get qml_settings "use_environment_import_paths")
        ++ flag_argument "--no-cmake-calls" (dict_get qml_settings "no_cmake_calls")
        ++ path_arguments "-d" root (dict_get qml_settings "doc_dir").
Proof.
  intros Hdep Hpaths Hbuild Hdoc. unfold __init__. rewrite Hdep, Hpaths.
  cbn [mbind result_bind].
  rewrite (path_setting_step "--build-dir" root _ ["qmlls"] Hbuild).
  cbn [mbind result_bind].
  assert (Himports : ∀ cmd0,
            (if truthy (PStr paths)
             then items ← py_iter (PStr paths); for_import_paths root items cmd0
             else Ok cmd0)
            = Ok (cmd0 ++ character_import_arguments root paths)).
  { intros cmd0. destruct paths as [| c rest].
    - simpl. rewrite app_nil_r. reflexivity.
    - change (truthy (PStr (String c rest))) with true. cbv iota.
      cbn [py_iter mbind result_bind].
      apply for_import_paths_characters. }
  rewrite Himports. cbn [mbind result_bind]. unfold flag_argument.
  destruct (truthy (dict_get qml_settings "use_environment_import_paths"));
    destruct (truthy (dict_get qml_settings "no_cmake_calls"));
    rewrite (path_setting_step "-d" root _ _ Hdoc);
    cbn [mbind result_bind]; eexists; (split; [reflexivity |]);
    cbn [cmd process_launch_info];
    rewrite <- ?app_assoc; simpl; rewrite ?app_nil_r; reflexivity.
Qed.

Lemma __init___import_paths_as_string_witness :
  _setup_runtime_dependency help_ok = Ok true
  ∧ dict_get (<["import_paths" := PStr (bytes [97; 195; 169])]> ∅) "import_paths"
    = PStr (bytes [97; 195; 169])
  ∧ ∃ self,
      __init__ help_ok "/home/u/proj" (<["import_paths" := PStr (bytes [97; 195; 169])]> ∅)
      = Ok self
      ∧ cmd (process_launch_info self)
        = ["qmlls"; "-I"; "/home/u/proj/a"; "-I"; "/home/u/proj/" +:+ bytes [195; 169]].
Proof.
  split; [reflexivity |]. split; [reflexivity |].
  destruct (__init___import_paths_as_string help_ok "/home/u/proj"
              (<["import_paths" := PStr (bytes [97; 195; 169])]> ∅) (bytes [97; 195; 169]))
    as (self & Hinit & Hcmd); [reflexivity | reflexivity | reflexivity | reflexivity |].
  exists self. split; [exact Hinit |]. rewrite Hcmd. reflexivity.
Defined.

(** ** The initialize parameters *)

(** X10: the builder needs an absolute path: for any other, the empty one
    included, it raises the [ValueError] of [as_uri] and builds nothing;
    it returns a payload exactly for the absolute ones. *)
Theorem _get_initialize_params_relative (pid : Z) (path : string) :
  (posixpath.isabs path = false → _get_initialize_params pid path = Raise ValueError)
  ∧ ((∃ params, _get_initialize_params pid path = Ok params)
     ↔ posixpath.isabs path = true).
Proof.
  split.
  - intros Hrel. unfold _get_initialize_params.
    rewrite (as_uri_relative path Hrel). reflexivity.
  - split.
    + intros [params Hparams]. destruct (posixpath.isabs path) eqn:E; [reflexivity |].
      unfold _get_initialize_params in Hparams.
      rewrite (as_uri_relative path E) in Hparams. discriminate.
    + apply _get_initialize_params_absolute.
Qed.

Lemma _get_initialize_params_relative_witness :
  posixpath.isabs "proj/qml" = false
  ∧ _get_initialize_params 4242 "proj/qml" = Raise ValueError
  ∧ _get_initialize_params 4242 "" = Raise ValueError.
Proof.
  split; [reflexivity |]. split.
  - apply (_get_initialize_params_relative 4242 "proj/qml"). reflexivity.
  - apply (_get_initialize_params_relative 4242 ""). reflexivity.
Defined.

Lemma basename_no_sep (p : string) : has_sep (posixpath.basename p) = false.
Proof.
  induction p as [| c rest IH]; [reflexivity |]. cbn [posixpath.basename].
  destruct (has_sep rest) eqn:Hrest; [exact IH |].
  destruct (Ascii.eqb c "/") eqn:Hc; [exact Hrest |].
  cbn [has_sep]. rewrite Hc, Hrest. reflexivity.
Qed.

Lemma endswith_sep_has_sep (p : string) : endswith_sep p = true → has_sep p = true.
Proof.
  induction p as [| c rest IH]; [discriminate |]. cbn [has_sep].
  destruct rest as [| c' rest'].
  - simpl. intros ->. reflexivity.
  - intros H. rewrite (IH H). apply orb_true_r.
Qed.

Lemma basename_trailing_sep (p : string) :
  endswith_sep p = true → posixpath.basename p = "".
Proof.
  induction p as [| c rest IH]; [discriminate |].
  destruct rest as [| c' rest'].
  - simpl. intros ->. reflexivity.
  - intros H. change (endswith_sep (String c (String c' rest')))
      with (endswith_sep (String c' rest')) in H.
    cbn [posixpath.basename]. rewrite (endswith_sep_has_sep _ H). exact (IH H).
Qed.

Lemma endswith_sep_cons (c : ascii) (dir : string) :
  endswith_sep dir = true → endswith_sep (String c dir) = true.
Proof. destruct dir; [discriminate | intros H; exact H]. Qed.

Lemma basename_split (p : string) :
  ∃ dir, p = dir +:+ posixpath.basename p ∧ (dir = "" ∨ endswith_sep dir = true).
Proof.
  induction p as [| c rest IH]; [exists ""; split; [reflexivity | left; reflexivity] |].
  cbn [posixpath.basename]. destruct (has_sep rest) eqn:Hrest.
  - destruct IH as (dir & Heq & [-> | Hdir]).
    + assert (Hsame : rest = posixpath.basename rest) by exact Heq.
      pose proof (basename_no_sep rest) as Hno. rewrite <- Hsame in Hno. congruence.
    + exists (String c dir). split.
      * exact (f_equal (String c) Heq).
      * right. exact (endswith_sep_cons c dir Hdir).
  - destruct (Ascii.eqb c "/") eqn:Hc.
    + exists (String c ""). split; [reflexivity |]. right. simpl. exact Hc.
    + exists "". split; [reflexivity | left; reflexivity].
Qed.

(** X11: the name of the workspace folder is the part of the path after
    its last "/": it contains no "/", the path is a directory prefix
    followed by it, and it is empty when the path ends with "/". *)
Theorem _get_initialize_params_folder_name (pid : Z) (path : string) (params : pyval) :
  _get_initialize_params pid path = Ok params →
  ∃ uri name dir,
    getitem params "workspaceFolders"
    = Ok (PList [PDict [("uri", PStr uri); ("name", PStr name)]])
    ∧ has_sep name = false
    ∧ path = dir +:+ name
    ∧ endswith_sep dir = true
    ∧ (endswith_sep path = true → name = "").
Proof.
  intros Hparams.
  assert (Habs : posixpath.isabs path = true).
  { destruct (posixpath.isabs path) eqn:E; [reflexivity |].
    unfold _get_initialize_params in Hparams.
    rewrite (as_uri_relative path E) in Hparams. discriminate. }
  unfold _get_initialize_params in Hparams.
  rewrite (as_uri_absolute path Habs) in Hparams. cbn [mbind result_bind] in Hparams.
  inversion Hparams; subst; clear Hparams.
  destruct (basename_split path) as (dir & Hsplit & Hdir).
  eexists. exists (posixpath.basename path), dir.
  split; [reflexivity |]. split; [apply basename_no_sep |].
  split; [exact Hsplit |]. split; [| apply basename_trailing_sep].
  destruct Hdir as [-> | Hdir]; [| exact Hdir].
  assert (Hsame : path = posixpath.basename path) by exact Hsplit.
  pose proof (basename_no_sep path) as Hno. rewrite <- Hsame in Hno. destruct path as [| c r]; [discriminate |].
  unfold posixpath.isabs, startswith_sep in Habs. cbn [has_sep] in Hno.
  rewrite Habs in Hno. discriminate.
Qed.

Lemma _get_initialize_params_folder_name_witness :
  ∃ params,
    _get_initialize_params 4242 "/home/u/proj/" = Ok params
    ∧ getitem params "workspaceFolders"
      = Ok (PList [PDict [("uri", PStr "file:///home/u/proj"); ("name", PStr "")]]).
Proof.
  destruct (_get_initialize_params 4242 "/home/u/proj/") as [params | e] eqn:E;
    [| vm_compute in E; discriminate].
  exists params. split; [reflexivity |].
  destruct (_get_initialize_params_folder_name 4242 "/home/u/proj/" params E)
    as (uri & name & dir & Hfolders & _ & _ & _ & Hempty).
  rewrite Hfolders. specialize (Hempty eq_refl). subst name.
  vm_compute in E. inversion E; subst. vm_compute in Hfolders.
  inversion Hfolders; subst. reflexivity.
Defined.

(** ** The startup sequence *)

Lemma sent_messages_prologue :
  sent_messages (registrations ++ [Logged "Starting qmlls server process" None]) = [].
Proof. reflexivity. Qed.

(** The events of a run that got as far as the initialize request. *)
Lemma history_awaiting env params w :
  history (awaiting env params w)
  = history w ++ (registrations ++ [Logged "Starting qmlls server process" None])
    ++ handshake_events env params w.
Proof.
  unfold awaiting, prepared. cbn [history]. rewrite <- !app_assoc. reflexivity.
Qed.


(** X12: when the child cannot be spawned, [_start_server] ends with the
    exception of [start]; by then it has registered the four handlers and
    written nothing to the server. *)
Theorem _start_server_spawn_failure
    (env : server_behaviour) (pid : Z) (self : QmlLanguageServer) (w : world) (e : exn) :
  spawn env = Raise e →
  fst (_start_server env pid self w) = Raise e
  ∧ running (snd (_start_server env pid self w)) = running w
  ∧ ∃ events,
      history (snd (_start_server env pid self w)) = history w ++ events
      ∧ (∀ r, r ∈ registrations → r ∈ events)
      ∧ sent_messages events = []
      ∧ Started ∉ events.
Proof.
  intros Hspawn. rewrite (_start_server_spawn_fails _ _ _ _ _ Hspawn).
  cbn [fst snd prepared running history].
  split; [reflexivity |]. split; [reflexivity |].
  exists (registrations ++ [Logged "Starting qmlls server process" None]).
  split; [reflexivity |]. split; [| split].
  - intros r Hr. apply elem_of_app. left. exact Hr.
  - apply sent_messages_prologue.
  - unfold registrations. rewrite elem_of_app, !elem_of_cons.
    intros [[H | [H | [H | [H | H]]]] | [H | H]]; try (discriminate H); inversion H.
Qed.

Lemma _start_server_spawn_failure_witness :
  spawn {| spawn := Raise StartupError; early := []; reply := Raise ServerDied |}
  = Raise StartupError
  ∧ fst (_start_server
           {| spawn := Raise StartupError; early := []; reply := Raise ServerDied |}
           4242 sample_self fresh) = Raise StartupError.
Proof.
  split; [reflexivity |].
  apply (_start_server_spawn_failure
           {| spawn := Raise StartupError; early := []; reply := Raise ServerDied |}
           4242 sample_self fresh StartupError).
  reflexivity.
Defined.

(** X13: the initialize parameters are built after the child is spawned:
    with a repository root that is not absolute, [_start_server] spawns the
    child, then ends with [ValueError], having written nothing to it and
    leaving it running. *)
Theorem _start_server_relative_root
    (env : server_behaviour) (pid : Z) (self : QmlLanguageServer) (w : world) (u : unit) :
  spawn env = Ok u →
  posixpath.isabs (repository_root_path self) = false →
  fst (_start_server env pid self w) = Raise ValueError
  ∧ running (snd (_start_server env pid self w)) = true
  ∧ ∃ events,
      history (snd (_start_server env pid self w)) = history w ++ events
      ∧ Started ∈ events
      ∧ sent_messages events = [].
Proof.
  intros Hspawn Hrel.
  assert (Hparams : _get_initialize_params pid (repository_root_path self) = Raise ValueError).
  { unfold _get_initialize_params. rewrite (as_uri_relative _ Hrel). reflexivity. }
  rewrite (_start_server_no_params _ _ _ _ _ _ Hspawn Hparams).
  cbn [fst snd started prepared running history].
  split; [reflexivity |]. split; [reflexivity |].
  exists ((registrations ++ [Logged "Starting qmlls server process" None]) ++ [Started]).
  split; [rewrite <- !app_assoc; reflexivity |]. split.
  - apply elem_of_app. right. apply list_elem_of_here.
  - reflexivity.
Qed.

Lemma _start_server_relative_root_witness :
  spawn chatty_server = Ok ()
  ∧ posixpath.isabs "proj" = false
  ∧ fst (_start_server chatty_server 4242
           {| repository_root_path := "proj";
              process_launch_info := {| cmd := ["qmlls"]; cwd := "proj" |};
              language_id := "qml"; request_id := 0 |} fresh) = Raise ValueError.
Proof.
  split; [reflexivity |]. split; [reflexivity |].
  apply (_start_server_relative_root chatty_server 4242
           {| repository_root_path := "proj";
              process_launch_info := {| cmd := ["qmlls"]; cwd := "proj" |};
              language_id := "qml"; request_id := 0 |} fresh ()); reflexivity.
Defined.



(** X15: startup reaches Ready exactly when the child was spawned, the
    repository root is absolute, the initialize request was answered, the
    answer has a "capabilities" entry and "textDocumentSync" is [in] it. *)
Theorem Ready_iff
    (env : server_behaviour) (pid : Z) (self : QmlLanguageServer) (w : world) :
  Ready (_start_server env pid self w)
  ↔ (∃ u, spawn env = Ok u)
    ∧ posixpath.isabs (repository_root_path self) = true
    ∧ ∃ init_response capabilities,
        reply env = Ok init_response
        ∧ getitem init_response "capabilities" = Ok capabilities
        ∧ py_contains "textDocumentSync" capabilities = Ok true.
Proof.
  unfold Ready. split.
  - intros Hready. destruct (spawn env) as [u | e] eqn:Hspawn.
    2: { rewrite (_start_server_spawn_fails _ _ _ _ _ Hspawn) in Hready. discriminate. }
    destruct (posixpath.isabs (repository_root_path self)) eqn:Habs.
    2: { assert (Hparams : _get_initialize_params pid (repository_root_path self)
                           = Raise ValueError).
         { unfold _get_initialize_params. rewrite (as_uri_relative _ Habs). reflexivity. }
         rewrite (_start_server_no_params _ _ _ _ _ _ Hspawn Hparams) in Hready.
         discriminate. }
    destruct (_get_initialize_params_absolute pid _ Habs) as [params Hparams].
    rewrite (_start_server_handshake _ _ _ _ _ _ Hspawn Hparams) in Hready.
    destruct (reply env) as [resp | e] eqn:Hreply; [| discriminate].
    rewrite validate_response in Hready. unfold capability_check in Hready.
    destruct (getitem resp "capabilities") as [caps | e] eqn:Hcaps; [| discriminate].
    cbn [mbind result_bind] in Hready.
    destruct (py_contains "textDocumentSync" caps) as [[|] | e] eqn:Hin;
      try discriminate.
    split; [eauto |]. split; [reflexivity |].
    exists resp, caps. repeat split; assumption || reflexivity.
  - intros ([u Hspawn] & Habs & resp & caps & Hreply & Hcaps & Hin).
    destruct (_get_initialize_params_absolute pid _ Habs) as [params Hparams].
    rewrite (_start_server_handshake _ _ _ _ _ _ Hspawn Hparams), Hreply,
      validate_response.
    unfold capability_check. rewrite Hcaps. cbn [mbind result_bind]. rewrite Hin.
    reflexivity.
Qed.

Lemma Ready_iff_witness :
  Ready (_start_server chatty_server 4242 sample_self fresh).
Proof.
  apply (Ready_iff chatty_server 4242 sample_self fresh).
  split; [exists (); reflexivity |]. split; [reflexivity |].
  exists (PDict [("capabilities", PDict [("textDocumentSync", PInt 2)])]),
    (PDict [("textDocumentSync", PInt 2)]).
  repeat split; reflexivity.
Defined.

Lemma getitem_missing (d : list (string * pyval)) (k : string) :
  k ∉ d.*1 → getitem (PDict d) k = Raise (KeyError k).
Proof.
  intros Hk. unfold getitem.
  assert (Hfind : List.find (fun kv => String.eqb (fst kv) k) d = None).
  { induction d as [| [k' v] d IH]; [reflexivity |].
    cbn in Hk. apply not_elem_of_cons in Hk as [Hne Hk].
    cbn [List.find fst]. apply not_eq_sym, String.eqb_neq in Hne. rewrite Hne.
    exact (IH Hk). }
  rewrite Hfind. reflexivity.
Qed.

(** X16: an initialize response without a "capabilities" entry makes
    [_start_server] end with [KeyError], and one that is no dictionary at
    all, [null] for one, with [TypeError]; in neither case is the
    initialized notification sent. *)
Theorem _start_server_malformed_response
    (env : server_behaviour) (pid : Z) (self : QmlLanguageServer) (w : world)
    (u : unit) (init_response : pyval) :
  spawn env = Ok u →
  posixpath.isabs (repository_root_path self) = true →
  reply env = Ok init_response →
  ((∀ d, init_response = PDict d → "capabilities" ∉ d.*1 →
         fst (_start_server env pid self w) = Raise (KeyError "capabilities"))
   ∧ ((∀ d, init_response ≠ PDict d) →
      fst (_start_server env pid self w) = Raise TypeError))
  ∧ (∀ e, getitem init_response "capabilities" = Raise e →
       ∀ ev, ev ∈ history (snd (_start_server env pid self w)) →
             ev ∈ history w ∨ is_initialized_notification ev = false).
Proof.
  intros Hspawn Habs Hreply.
  destruct (_get_initialize_params_absolute pid _ Habs) as [params Hparams].
  assert (Hrun : ∀ e, getitem init_response "capabilities" = Raise e →
            _start_server env pid self w = (Raise e, awaiting env params w)).
  { intros e He.
    rewrite (_start_server_handshake _ _ _ _ _ _ Hspawn Hparams), Hreply,
      validate_response.
    unfold capability_check. rewrite He. reflexivity. }
  split; [split |].
  - intros d -> Hmissing. rewrite (Hrun _ (getitem_missing d _ Hmissing)). reflexivity.
  - intros Hnodict. rewrite (Hrun TypeError); [reflexivity |].
    destruct init_response; try reflexivity. exfalso. exact (Hnodict d eq_refl).
  - intros e He ev. rewrite (Hrun e He). cbn [snd]. rewrite history_awaiting.
    unfold handshake_events.
    rewrite !elem_of_app, !elem_of_cons.
    intros [Hw | [[Hreg | [-> | Hnil]] | [[-> | [-> | [-> | Hnil]]] | Hpushed]]];
      try (right; reflexivity); try (inversion Hnil; fail); [left; exact Hw | |].
    + right. unfold registrations in Hreg. rewrite !elem_of_cons in Hreg.
      destruct Hreg as [-> | [-> | [-> | [-> | Hnil]]]]; try reflexivity. inversion Hnil.
    + right. destruct ev as [| | | m | | |]; try reflexivity.
      assert (Hm : m ∈ sent_messages
                (flat_map (dispatch_events (request_handlers (prepared w))
                             (notification_handlers (prepared w))) (early env))).
      { apply list_elem_of_omap. exists (Sent m). split; [exact Hpushed | reflexivity]. }
      pose proof (dispatch_sends_responses (request_handlers (prepared w))
                    (notification_handlers (prepared w)) (early env)) as Hresp.
      rewrite forallb_forall in Hresp. apply list_elem_of_In, Hresp in Hm.
      destruct m; simpl in *; congruence.
Qed.

Lemma _start_server_malformed_response_witness :
  fst (_start_server {| spawn := Ok (); early := []; reply := Ok (PDict [("serverInfo", PNone)]) |}
         4242 sample_self fresh) = Raise (KeyError "capabilities")
  ∧ fst (_start_server {| spawn := Ok (); early := []; reply := Ok PNone |}
           4242 sample_self fresh) = Raise TypeError.
Proof.
  split.
  - destruct (_start_server_malformed_response
                {| spawn := Ok (); early := []; reply := Ok (PDict [("serverInfo", PNone)]) |}
                4242 sample_self fresh () (PDict [("serverInfo", PNone)]))
      as [[Hkey _] _]; [reflexivity | reflexivity | reflexivity |].
    apply (Hkey [("serverInfo", PNone)]); [reflexivity |].
    cbn. rewrite elem_of_cons. intros [H | H]; [discriminate | inversion H].
  - destruct (_start_server_malformed_response
                {| spawn := Ok (); early := []; reply := Ok PNone |}
                4242 sample_self fresh () PNone)
      as [[_ Htype] _]; [reflexivity | reflexivity | reflexivity |].
    apply Htype. intros d. discriminate.
Defined.

Lemma existsb_key_true (k : string) (d : list (string * pyval)) :
  k ∈ d.*1 → existsb (fun kv => String.eqb (fst kv) k) d = true.
Proof.
  induction d as [| [k' v] d IH]; cbn; [intros H; inversion H |].
  rewrite elem_of_cons. intros [-> | Hk].
  - rewrite String.eqb_refl. reflexivity.
  - rewrite (IH Hk). apply orb_true_r.
Qed.

(** X17: when the response's capabilities are a dictionary, only the
    presence of the "textDocumentSync" key decides: startup reaches Ready
    exactly when the key is there, whatever is stored under it. *)
Theorem Ready_iff_key_present
    (env : server_behaviour) (pid : Z) (self : QmlLanguageServer) (w : world)
    (u : unit) (init_response : pyval) (caps : list (string * pyval)) :
  spawn env = Ok u →
  posixpath.isabs (repository_root_path self) = true →
  reply env = Ok init_response →
  getitem init_response "capabilities" = Ok (PDict caps) →
  (Ready (_start_server env pid self w) ↔ "textDocumentSync" ∈ caps.*1).
Proof.
  intros Hspawn Habs Hreply Hcaps.
  destruct (_get_initialize_params_absolute pid _ Habs) as [params Hparams].
  unfold Ready.
  rewrite (_start_server_handshake _ _ _ _ _ _ Hspawn Hparams), Hreply,
    validate_response, (capability_check_dict _ _ Hcaps).
  destruct (decide ("textDocumentSync" ∈ caps.*1)) as [Hin | Hout].
  - rewrite (existsb_key_true _ _ Hin). split; [intros _; exact Hin | reflexivity].
  - rewrite (existsb_key_false _ _ Hout). split; [discriminate | contradiction].
Qed.

Lemma Ready_iff_key_present_witness :
  Ready (_start_server
           {| spawn := Ok (); early := [];
              reply := Ok (PDict [("capabilities", PDict [("textDocumentSync", PNone)])]) |}
           4242 sample_self fresh).
Proof.
  apply (Ready_iff_key_present
           {| spawn := Ok (); early := [];
              reply := Ok (PDict [("capabilities", PDict [("textDocumentSync", PNone)])]) |}
           4242 sample_self fresh ()
           (PDict [("capabilities", PDict [("textDocumentSync", PNone)])])
           [("textDocumentSync", PNone)]); try reflexivity.
  cbn. apply list_elem_of_here.
Defined.

(** The events one run adds, by how far it got. *)
Lemma _start_server_events env pid self w :
  ∃ events,
    history (snd (_start_server env pid self w)) = history w ++ events
    ∧ (events = registrations ++ [Logged "Starting qmlls server process" None]
       ∨ events = (registrations ++ [Logged "Starting qmlls server process" None])
                  ++ [Started]
       ∨ ∃ params,
           _get_initialize_params pid (repository_root_path self) = Ok params
           ∧ (events = (registrations ++ [Logged "Starting qmlls server process" None])
                       ++ handshake_events env params w
              ∨ events = ((registrations ++ [Logged "Starting qmlls server process" None])
                          ++ handshake_events env params w)
                         ++ [Sent (Notification "initialized" (PDict []))])).
Proof.
  destruct (spawn env) as [u | e] eqn:Hspawn.
  2: { rewrite (_start_server_spawn_fails _ _ _ _ _ Hspawn). eexists. split.
       - cbn [snd prepared history]. reflexivity.
       - left. reflexivity. }
  destruct (_get_initialize_params pid (repository_root_path self)) as [params | e] eqn:Hparams.
  2: { rewrite (_start_server_no_params _ _ _ _ _ _ Hspawn Hparams). eexists. split.
       - cbn [snd started prepared history]. rewrite <- app_assoc. reflexivity.
       - right. left. rewrite <- !app_assoc. reflexivity. }
  rewrite (_start_server_handshake _ _ _ _ _ _ Hspawn Hparams).
  assert (Hstay : ∃ events,
            history (awaiting env params w) = history w ++ events
            ∧ events = (registrations ++ [Logged "Starting qmlls server process" None])
                       ++ handshake_events env params w).
  { eexists. split; [apply history_awaiting | reflexivity]. }
  destruct (reply env) as [resp | e].
  2: { rewrite validate_failed. destruct Hstay as (events & Hh & He).
       exists events. split; [exact Hh |]. right. right. exists params. eauto. }
  rewrite validate_response. destruct (capability_check resp).
  - eexists. split.
    + cbn [snd extend history]. rewrite history_awaiting, <- app_assoc. reflexivity.
    + right. right. exists params. split; [reflexivity |]. right.
      rewrite <- !app_assoc. reflexivity.
  - destruct Hstay as (events & Hh & He).
    exists events. split; [exact Hh |]. right. right. exists params. eauto.
Qed.

Lemma sent_in_dispatch_is_response (rq nt : gmap string handler) (ms : list message)
    (m : message) :
  Sent m ∈ flat_map (dispatch_events rq nt) ms → is_response m = true.
Proof.
  intros Hin.
  assert (Hm : m ∈ sent_messages (flat_map (dispatch_events rq nt) ms)).
  { apply list_elem_of_omap. exists (Sent m). split; [exact Hin | reflexivity]. }
  pose proof (dispatch_sends_responses rq nt ms) as Hresp.
  rewrite forallb_forall in Hresp. apply Hresp, list_elem_of_In, Hm.
Qed.

Lemma request_in_prologue (id : Z) (method : string) (params : pyval) :
  Sent (Request id method params)
  ∉ registrations ++ [Logged "Starting qmlls server process" None].
Proof.
  unfold registrations. rewrite elem_of_app, !elem_of_cons.
  intros [[H | [H | [H | [H | H]]]] | [H | H]]; try (discriminate H); inversion H.
Qed.

(** X18: the only request [_start_server] ever writes is the initialize
    request, under the connection's next free id and with the payload built
    from [self.repository_root_path]. *)
Theorem _start_server_only_request
    (env : server_behaviour) (pid : Z) (self : QmlLanguageServer) (w : world)
    (events : list event) (id : Z) (method : string) (params : pyval) :
  history (snd (_start_server env pid self w)) = history w ++ events →
  Sent (Request id method params) ∈ events →
  method = "initialize"
  ∧ id = next_id w
  ∧ _get_initialize_params pid (repository_root_path self) = Ok params.
Proof.
  intros Hhist Hin.
  destruct (_start_server_events env pid self w) as (events' & Hhist' & Hcases).
  rewrite Hhist in Hhist'. apply app_inv_head in Hhist'. subst events'.
  assert (Hhandshake : ∀ built,
            _get_initialize_params pid (repository_root_path self) = Ok built →
            Sent (Request id method params) ∈ handshake_events env built w →
            method = "initialize" ∧ id = next_id w
            ∧ _get_initialize_params pid (repository_root_path self) = Ok params).
  { intros built Hbuilt. unfold handshake_events.
    rewrite elem_of_app, !elem_of_cons.
    intros [[H | [H | [H | H]]] | H]; try (discriminate H).
    - inversion H; subst. split; [reflexivity |]. split; [reflexivity | exact Hbuilt].
    - inversion H.
    - apply sent_in_dispatch_is_response in H. discriminate H. }
  destruct Hcases as [-> | [-> | (built & Hbuilt & [-> | ->])]].
  - exfalso. exact (request_in_prologue _ _ _ Hin).
  - exfalso. apply elem_of_app in Hin as [Hin | Hin].
    + exact (request_in_prologue _ _ _ Hin).
    + apply elem_of_cons in Hin as [H | H]; [discriminate H | inversion H].
  - apply elem_of_app in Hin as [Hin | Hin].
    + exfalso. exact (request_in_prologue _ _ _ Hin).
    + exact (Hhandshake built Hbuilt Hin).
  - apply elem_of_app in Hin as [Hin | Hin].
    + apply elem_of_app in Hin as [Hin | Hin].
      * exfalso. exact (request_in_prologue _ _ _ Hin).
      * exact (Hhandshake built Hbuilt Hin).
    + apply elem_of_cons in Hin as [H | H]; [discriminate H | inversion H].
Qed.

Lemma _start_server_only_request_witness :
  ∃ params,
    _get_initialize_params 4242 "/home/u/proj" = Ok params
    ∧ Sent (Request 0 "initialize" params)
      ∈ history (snd (_start_server chatty_server 4242 sample_self fresh)).
Proof.
  assert (Hin : ∃ params, Sent (Request 0 "initialize" params)
                  ∈ history (snd (_start_server chatty_server 4242 sample_self fresh))).
  { eexists. vm_compute. do 7 apply list_elem_of_further. apply list_elem_of_here. }
  destruct Hin as [params Hin]. exists params. split; [| exact Hin].
  apply (_start_server_only_request chatty_server 4242 sample_self fresh
           (history (snd (_start_server chatty_server 4242 sample_self fresh)))
           0 "initialize" params); [cbn [fresh history app]; reflexivity | exact Hin].
Defined.

Lemma _start_server_tables env pid self w :
  request_handlers (snd (_start_server env pid self w)) = request_handlers (prepared w)
  ∧ notification_handlers (snd (_start_server env pid self w))
    = notification_handlers (prepared w).
Proof.
  destruct (spawn env) as [u | e] eqn:Hspawn.
  2: { rewrite (_start_server_spawn_fails _ _ _ _ _ Hspawn). split; reflexivity. }
  destruct (_get_initialize_params pid (repository_root_path self)) as [params | e] eqn:Hparams.
  2: { rewrite (_start_server_no_params _ _ _ _ _ _ Hspawn Hparams). split; reflexivity. }
  rewrite (_start_server_handshake _ _ _ _ _ _ Hspawn Hparams).
  destruct (reply env) as [resp | e]; [| rewrite validate_failed; split; reflexivity].
  rewrite validate_response. destruct (capability_check resp); split; reflexivity.
Qed.

(** X19: however [_start_server] ends, the four methods are bound to its
    handlers afterwards, also where another handler was registered before,
    and the handler of every other method is the one it was. *)
Theorem _start_server_handler_tables
    (env : server_behaviour) (pid : Z) (self : QmlLanguageServer) (w : world) :
  request_handlers (snd (_start_server env pid self w)) !! "client/registerCapability"
  = Some register_capability_handler
  ∧ notification_handlers (snd (_start_server env pid self w)) !! "window/logMessage"
    = Some window_log_message
  ∧ notification_handlers (snd (_start_server env pid self w)) !! "$/progress"
    = Some do_nothing
  ∧ notification_handlers (snd (_start_server env pid self w))
      !! "textDocument/publishDiagnostics" = Some do_nothing
  ∧ (∀ method, method ≠ "client/registerCapability" →
       request_handlers (snd (_start_server env pid self w)) !! method
       = request_handlers w !! method)
  ∧ (∀ method, method ≠ "window/logMessage" → method ≠ "$/progress" →
       method ≠ "textDocument/publishDiagnostics" →
       notification_handlers (snd (_start_server env pid self w)) !! method
       = notification_handlers w !! method).
Proof.
  destruct (_start_server_tables env pid self w) as [-> ->].
  unfold prepared. cbn [request_handlers notification_handlers].
  split; [apply lookup_insert_eq |].
  split; [rewrite !lookup_insert_ne by discriminate; apply lookup_insert_eq |].
  split; [rewrite lookup_insert_ne by discriminate; apply lookup_insert_eq |].
  split; [apply lookup_insert_eq |]. split.
  - intros method Hne. apply lookup_insert_ne. congruence.
  - intros method H1 H2 H3. rewrite !lookup_insert_ne by congruence. reflexivity.
Qed.

Lemma _start_server_handler_tables_witness :
  notification_handlers
    (snd (_start_server chatty_server 4242 sample_self
            {| request_handlers := ∅;
               notification_handlers :=
                 <["window/logMessage" := do_nothing]> (<["custom/event" := do_nothing]> ∅);
               running := false; next_id := 0; history := [] |}))
    !! "custom/event" = Some do_nothing.
Proof.
  destruct (_start_server_handler_tables chatty_server 4242 sample_self
              {| request_handlers := ∅;
                 notification_handlers :=
                   <["window/logMessage" := do_nothing]> (<["custom/event" := do_nothing]> ∅);
                 running := false; next_id := 0; history := [] |})
    as (_ & _ & _ & _ & _ & Hother).
  rewrite Hother; [reflexivity | discriminate | discriminate | discriminate].
Defined.

Lemma logged_messages_app (evs1 evs2 : list event) :
  logged_messages (evs1 ++ evs2) = logged_messages evs1 ++ logged_messages evs2.
Proof. apply omap_app. Qed.

Lemma logged_messages_handler (h : handler) (params : pyval) (rest : list event) :
  h ≠ window_log_message →
  logged_messages (handler_events h params ++ rest) = logged_messages rest.
Proof. destruct h; [reflexivity | contradiction | reflexivity]. Qed.

Lemma prepared_request_handler (w : world) (method : string) :
  (∀ m, request_handlers w !! m ≠ Some window_log_message) →
  request_handlers (prepared w) !! method ≠ Some window_log_message.
Proof.
  intros Hw. unfold prepared. cbn [request_handlers]. rewrite lookup_insert.
  case_decide; [discriminate | apply Hw].
Qed.

Lemma prepared_notification_handler (w : world) (method : string) :
  (∀ m, notification_handlers w !! m ≠ Some window_log_message) →
  method ≠ "window/logMessage" →
  notification_handlers (prepared w) !! method ≠ Some window_log_message.
Proof.
  intros Hw Hne. unfold prepared. cbn [notification_handlers].
  rewrite lookup_insert. case_decide; [discriminate |].
  rewrite lookup_insert. case_decide; [discriminate |].
  rewrite lookup_insert_ne by congruence. apply Hw.
Qed.

Lemma logged_messages_dispatch (w : world) (ms : list message) :
  (∀ m, request_handlers w !! m ≠ Some window_log_message) →
  (∀ m, notification_handlers w !! m ≠ Some window_log_message) →
  logged_messages
    (flat_map (dispatch_events (request_handlers (prepared w))
                 (notification_handlers (prepared w))) ms)
  = log_message_params ms.
Proof.
  intros Hrq Hnt. induction ms as [| m ms IH]; [reflexivity |].
  cbn [flat_map]. rewrite logged_messages_app, IH. clear IH.
  change (m :: ms) with ([m] ++ ms). unfold log_message_params at 2.
  rewrite omap_app. fold (log_message_params [m]) (log_message_params ms).
  f_equal.
  destruct m as [id method params | id res | id code msg | method params];
    try reflexivity; unfold dispatch_events.
  - pose proof (prepared_request_handler w method Hrq) as Hh.
    destruct (request_handlers (prepared w) !! method) as [h |]; [| reflexivity].
    rewrite logged_messages_handler by congruence. reflexivity.
  - unfold log_message_params. cbn [omap list_omap].
    destruct (String.eqb method "window/logMessage") eqn:E.
    + apply String.eqb_eq in E. subst method.
      unfold prepared. cbn [notification_handlers].
      rewrite !lookup_insert_ne by discriminate. rewrite lookup_insert_eq.
      reflexivity.
    + apply String.eqb_neq in E.
      pose proof (prepared_notification_handler w method Hnt E) as Hh.
      destruct (notification_handlers (prepared w) !! method) as [h |]; [| reflexivity].
      rewrite logged_messages_handler by congruence. reflexivity.
Qed.

(** X20: on a connection where the log handler was not registered for
    anything before, the window/logMessage notifications that arrive
    before the initialize response are logged one line each, in the order
    of their arrival, and nothing else is logged by a handler. *)
Theorem log_messages_in_arrival_order
    (env : server_behaviour) (pid : Z) (self : QmlLanguageServer) (w : world) (u : unit) :
  spawn env = Ok u →
  posixpath.isabs (repository_root_path self) = true →
  (∀ m, request_handlers w !! m ≠ Some window_log_message) →
  (∀ m, notification_handlers w !! m ≠ Some window_log_message) →
  ∃ events,
    history (snd (_start_server env pid self w)) = history w ++ events
    ∧ logged_messages events = log_message_params (early env).
Proof.
  intros Hspawn Habs Hrq Hnt.
  destruct (_get_initialize_params_absolute pid _ Habs) as [params Hparams].
  assert (Hlogged : logged_messages
            ((registrations ++ [Logged "Starting qmlls server process" None])
             ++ handshake_events env params w) = log_message_params (early env)).
  { unfold handshake_events. rewrite !logged_messages_app.
    rewrite (logged_messages_dispatch w (early env) Hrq Hnt). reflexivity. }
  rewrite (_start_server_handshake _ _ _ _ _ _ Hspawn Hparams).
  destruct (reply env) as [resp | e].
  2: { rewrite validate_failed. eexists. split; [apply history_awaiting | exact Hlogged]. }
  rewrite validate_response. destruct (capability_check resp).
  - exists (((registrations ++ [Logged "Starting qmlls server process" None])
             ++ handshake_events env params w)
            ++ [Sent (Notification "initialized" (PDict []))]).
    split.
    + cbn [snd extend history]. rewrite history_awaiting, <- !app_assoc. reflexivity.
    + rewrite logged_messages_app, Hlogged. apply app_nil_r.
  - eexists. split; [apply history_awaiting | exact Hlogged].
Qed.

Lemma log_messages_in_arrival_order_witness :
  ∃ events,
    history (snd (_start_server chatty_server 4242 sample_self fresh)) = [] ++ events
    ∧ logged_messages events
      = [PDict [("type", PInt 3); ("message", PStr "hello")]].
Proof.
  apply (log_messages_in_arrival_order chatty_server 4242 sample_self fresh ());
    [reflexivity | reflexivity | |]; intros m; cbn [fresh request_handlers notification_handlers];
    rewrite lookup_empty; discriminate.
Defined.

(** ** The references test *)

Lemma ref_lines_of_length (refs : list pyval) (lines : list pyval) :
  ref_lines_of refs = Ok lines → length lines = length refs.
Proof.
  revert lines. induction refs as [| r refs IH]; intros lines; simpl.
  - intros [= <-]. reflexivity.
  - destruct (ref_start_line r); [| discriminate]. cbn [mbind result_bind].
    destruct (ref_lines_of refs) as [ls |]; [| discriminate]. cbn [mbind result_bind].
    intros [= <-]. simpl. f_equal. apply IH. reflexivity.
Qed.

Lemma ref_lines_of_ok (refs : list pyval) :
  (∃ lines, ref_lines_of refs = Ok lines)
  ↔ Forall (fun r => ∃ line, ref_start_line r = Ok line) refs.
Proof.
  induction refs as [| r refs IH]; simpl.
  - split; [constructor | eauto].
  - rewrite Forall_cons, <- IH. split.
    + intros [lines H]. destruct (ref_start_line r) as [line |]; [| discriminate].
      cbn [mbind result_bind] in H.
      destruct (ref_lines_of refs) as [ls |]; [| discriminate]. eauto.
    + intros [[line ->] [ls ->]]. eexists. reflexivity.
Qed.

(** X21: the references test passes exactly when at least two references
    come back and each has a [range.start.line]; it fails with
    AssertionError on an empty answer, and it never looks at the values of
    the lines. *)
Theorem test_find_references_within_file_passes (refs : list pyval) :
  (test_find_references_within_file (PList refs) = Ok ()
   ↔ (2 ≤ length refs)%nat
     ∧ Forall (fun r => ∃ line, ref_start_line r = Ok line) refs)
  ∧ test_find_references_within_file (PList []) = Raise AssertionError
  ∧ test_find_references_within_file PNone = Raise AssertionError.
Proof.
  split; [| split; reflexivity].
  rewrite <- ref_lines_of_ok. unfold test_find_references_within_file.
  destruct refs as [| r refs].
  - simpl. split; [discriminate | intros [H _]; inversion H].
  - change (truthy (PList (r :: refs))) with true. cbv iota.
    cbn [mbind result_bind py_iter].
    destruct (ref_lines_of (r :: refs)) as [lines | e] eqn:E; cbn [mbind result_bind].
    + rewrite (ref_lines_of_length _ _ E).
      destruct (2 <=? length (r :: refs))%nat eqn:Hlen.
      * apply Nat.leb_le in Hlen. split; [eauto | reflexivity].
      * apply Nat.leb_gt in Hlen. split; [discriminate | intros [H _]; lia].
    + split; [discriminate | intros [_ [lines H]]; discriminate].
Qed.

Lemma test_find_references_within_file_passes_witness :
  test_find_references_within_file
    (PList [PDict [("range", PDict [("start", PDict [("line", PInt 0)])])];
            PDict [("range", PDict [("start", PDict [("line", PInt 99)])])]])
  = Ok ().
Proof.
  apply (proj1 (test_find_references_within_file_passes _)). split.
  - simpl. lia.
  - repeat constructor; eexists; reflexivity.
Defined.
